(** * Virtual list: windowing and offset correction of [src/List.tsx]

    A shallow embedding of the [List] class component and of the part of
    the host (JavaScript numbers and values, the DOM element fields the
    component reads, React's mount/update contract) that its methods touch.

    Numbers.  A JavaScript [number] is modelled as an exact rational
    extended with [NaN] and the two infinities: division by zero, [NaN]
    propagation and comparisons with [NaN] behave as in the language, while
    binary64 rounding and the sign of zero are not represented.  Orders,
    integer indices and counts read the same in both arithmetics; where a
    statement is an equality of computed fractions, the module [Binary64]
    runs the same methods on the machine's numbers. *)

From Stdlib Require Import QArith Qround Lia Lqa ZArith.
From Stdlib Require PrimFloat FloatOps SpecFloat.
From stdpp Require Import base option list gmap strings pretty.

Set Warnings "-register-all".
Local Open Scope Q_scope.

(** ** JavaScript numbers *)

Module JS.

Inductive number : Type :=
| NaN
| Infinity
| NegInfinity
| Finite (q : Q).

Definition of_Z (z : Z) : number := Finite (inject_Z z).
Definition of_nat (n : nat) : number := of_Z (Z.of_nat n).
Definition zero : number := of_Z 0.
Definition one : number := of_Z 1.

Definition is_finite (x : number) : bool :=
  match x with Finite _ => true | _ => false end.

(** The infinity carrying the sign of a comparison with zero; an
    indeterminate form is [NaN]. *)
Definition signed_inf (c : comparison) : number :=
  match c with Gt => Infinity | Lt => NegInfinity | Eq => NaN end.

Definition neg (x : number) : number :=
  match x with
  | NaN => NaN
  | Infinity => NegInfinity
  | NegInfinity => Infinity
  | Finite q => Finite (- q)
  end.

Definition add (x y : number) : number :=
  match x, y with
  | NaN, _ | _, NaN => NaN
  | Infinity, NegInfinity | NegInfinity, Infinity => NaN
  | Infinity, _ | _, Infinity => Infinity
  | NegInfinity, _ | _, NegInfinity => NegInfinity
  | Finite a, Finite b => Finite (a + b)
  end.

Definition sub (x y : number) : number := add x (neg y).

Definition mul (x y : number) : number :=
  match x, y with
  | NaN, _ | _, NaN => NaN
  | Infinity, Infinity | NegInfinity, NegInfinity => Infinity
  | Infinity, NegInfinity | NegInfinity, Infinity => NegInfinity
  | Infinity, Finite q | Finite q, Infinity => signed_inf (q ?= 0)
  | NegInfinity, Finite q | Finite q, NegInfinity => signed_inf (0 ?= q)
  | Finite a, Finite b => Finite (a * b)
  end.

Definition div (x y : number) : number :=
  match x, y with
  | NaN, _ | _, NaN => NaN
  | (Infinity | NegInfinity), (Infinity | NegInfinity) => NaN
  | Infinity, Finite b => if Qle_bool 0 b then Infinity else NegInfinity
  | NegInfinity, Finite b => if Qle_bool 0 b then NegInfinity else Infinity
  | Finite _, (Infinity | NegInfinity) => Finite 0
  | Finite a, Finite b =>
      if Qeq_bool b 0 then signed_inf (a ?= 0) else Finite (a / b)
  end.

(** [Math.floor], [Math.ceil]. *)
Definition floor (x : number) : number :=
  match x with Finite q => of_Z (Qfloor q) | _ => x end.

Definition ceil (x : number) : number :=
  match x with Finite q => of_Z (Qceiling q) | _ => x end.

(** [Math.max], [Math.min] on two arguments. *)
Definition max (x y : number) : number :=
  match x, y with
  | NaN, _ | _, NaN => NaN
  | Infinity, _ | _, Infinity => Infinity
  | NegInfinity, z | z, NegInfinity => z
  | Finite a, Finite b => if Qle_bool a b then Finite b else Finite a
  end.

Definition min (x y : number) : number :=
  match x, y with
  | NaN, _ | _, NaN => NaN
  | NegInfinity, _ | _, NegInfinity => NegInfinity
  | Infinity, z | z, Infinity => z
  | Finite a, Finite b => if Qle_bool a b then Finite a else Finite b
  end.

(** [x <= y]; every comparison with [NaN] is false. *)
Definition le (x y : number) : bool :=
  match x, y with
  | NaN, _ | _, NaN => false
  | NegInfinity, _ | _, Infinity => true
  | Infinity, _ | _, NegInfinity => false
  | Finite a, Finite b => Qle_bool a b
  end.

Definition ge (x y : number) : bool := le y x.

(** [x === y] on numbers. *)
Definition strict_eq (x y : number) : bool :=
  match x, y with
  | Infinity, Infinity | NegInfinity, NegInfinity => true
  | Finite a, Finite b => Qeq_bool a b
  | _, _ => false
  end.

(** [ToBoolean] on a number. *)
Definition truthy (x : number) : bool :=
  match x with
  | NaN => false
  | Finite q => negb (Qeq_bool q 0)
  | _ => true
  end.

(** [x || 0] where [x] is a possibly missing number. *)
Definition or_zero (x : option number) : number :=
  match x with
  | Some n => if truthy n then n else zero
  | None => zero
  end.

(** [x === undefined] on a possibly [undefined] number. *)
Definition is_undefined (x : option number) : bool :=
  match x with Some _ => false | None => true end.

(** [ToNumber] of a possibly [undefined] number. *)
Definition to_number (x : option number) : number :=
  match x with Some n => n | None => NaN end.

(** A finite number that is a non-negative integer is an array index. *)
Definition is_integer (q : Q) : bool := Qeq_bool (inject_Z (Qfloor q)) q.

Definition as_index (x : number) : option nat :=
  match x with
  | Finite q =>
      if is_integer q && (0 <=? Qfloor q)%Z then Some (Z.to_nat (Qfloor q))
      else None
  | _ => None
  end.

(** [Number.prototype.toString] on the values the component uses as
    keys: integers print in decimal.  A fraction, which no index ever is,
    is printed as a reduced quotient, which keeps the printing injective. *)
Definition to_string (x : number) : string :=
  match x with
  | NaN => "NaN"
  | Infinity => "Infinity"
  | NegInfinity => "-Infinity"
  | Finite q =>
      if is_integer q then pretty (Qfloor q)
      else pretty (Qnum (Qred q)) +:+ "/" +:+ pretty (Zpos (Qden (Qred q)))
  end.

(** Numeric equality and order as propositions, up to the representation
    of the rational. *)
Definition eqv (x y : number) : Prop :=
  match x, y with
  | NaN, NaN | Infinity, Infinity | NegInfinity, NegInfinity => True
  | Finite a, Finite b => a == b
  | _, _ => False
  end.

Definition leq (x y : number) : Prop := le x y = true.

(** ** Values *)

Inductive value : Type :=
| VUndefined
| VNull
| VBool (b : bool)
| VNumber (n : number)
| VString (s : string)
| VObject (fields : list (string * value)).

Definition truthy_value (v : value) : bool :=
  match v with
  | VUndefined | VNull => false
  | VBool b => b
  | VNumber n => truthy n
  | VString s => negb (String.eqb s "")
  | VObject _ => true
  end.

Definition truthy_string (s : option string) : bool :=
  match s with Some s => negb (String.eqb s "") | None => false end.

Fixpoint assoc (k : string) (fields : list (string * value)) : value :=
  match fields with
  | [] => VUndefined
  | (k', v) :: rest => if String.eqb k k' then v else assoc k rest
  end.

(** [item[name]] on own data properties; a primitive has none. *)
Definition get_property (item : value) (name : string) : value :=
  match item with
  | VObject fields => assoc name fields
  | _ => VUndefined
  end.

(** [array[index]]: [undefined] unless [index] is an index inside the
    array. *)
Definition array_get (array : list value) (index : number) : value :=
  match as_index index with
  | Some i => default VUndefined (array !! i)
  | None => VUndefined
  end.

(** [ToPropertyKey]: how a value names a slot of an object used as a map. *)
Definition to_property_key (v : value) : string :=
  match v with
  | VUndefined => "undefined"
  | VNull => "null"
  | VBool true => "true"
  | VBool false => "false"
  | VNumber n => to_string n
  | VString s => s
  | VObject _ => "[object Object]"
  end.

(** [ToIntegerOrInfinity] followed by the relative-index clamp of
    [Array.prototype.slice]. *)
Definition truncate (q : Q) : Z := Z.quot (Qnum q) (Zpos (Qden q)).

Definition relative_index (len : nat) (x : number) : nat :=
  match x with
  | NaN | NegInfinity => 0%nat
  | Infinity => len
  | Finite q =>
      let z := truncate q in
      if (z <? 0)%Z then Z.to_nat (Z.max (Z.of_nat len + z) 0)
      else Z.to_nat (Z.min z (Z.of_nat len))
  end.

Definition slice {A} (l : list A) (start stop : number) : list A :=
  let k := relative_index (length l) start in
  let final := relative_index (length l) stop in
  take (final - k) (drop k l).

(** ** Outcomes of a method call

    A call returns, throws, or never returns. *)

Inductive outcome (A : Type) : Type :=
| Ok (a : A)
| TypeError
| Hang.
Arguments Ok {A} a.
Arguments TypeError {A}.
Arguments Hang {A}.

Definition bind {A B} (m : outcome A) (k : A → outcome B) : outcome B :=
  match m with
  | Ok a => k a
  | TypeError => TypeError
  | Hang => Hang
  end.

(** ** Counting loops

    [for (i = from; i <= to; i += 1)] and
    [for (i = from; i >= to; i -= 1)] over numbers.  With finite bounds the
    trip count is known on entry; a bound that is [NaN] fails the first
    test; an infinite bound that passes the test passes it forever, since
    adding one to it changes nothing. *)

Fixpoint iterate {A} (n : nat) (i step : Q) (body : number → A → A) (a : A) : A :=
  match n with
  | O => a
  | S n => iterate n (i + step) step body (body (Finite i) a)
  end.

Definition trips (lo hi : Q) : nat :=
  if Qle_bool lo hi then Z.to_nat (Qfloor (hi - lo) + 1) else 0%nat.

Definition for_up {A} (from to : number) (body : number → A → A) (a : A) : outcome A :=
  match from, to with
  | Finite lo, Finite hi => Ok (iterate (trips lo hi) lo 1 body a)
  | _, _ => if le from to then Hang else Ok a
  end.

Definition for_down {A} (from to : number) (body : number → A → A) (a : A) : outcome A :=
  match from, to with
  | Finite hi, Finite lo => Ok (iterate (trips lo hi) hi (-1) body a)
  | _, _ => if ge from to then Hang else Ok a
  end.

End JS.

#[global] Instance outcome_bind : MBind JS.outcome := λ A B k m, JS.bind m k.
#[global] Instance outcome_ret : MRet JS.outcome := @JS.Ok.

(** ** The DOM element fields the component reads and writes *)

Module Dom.

Record HTMLElement : Type := {
  scrollTop : JS.number;
  scrollHeight : JS.number;
  clientHeight : JS.number;
  offsetHeight : JS.number;
}.

Definition set_scrollTop (el : HTMLElement) (v : JS.number) : HTMLElement :=
  {| scrollTop := v;
     scrollHeight := scrollHeight el;
     clientHeight := clientHeight el;
     offsetHeight := offsetHeight el |}.

End Dom.

(** ** [./util]

    The three helpers imported from [./util] are not part of the sources at
    hand; they are written from the specification of the Percentage
    Mapper, the Location Estimator and the Height Cache. *)

(** Modelled from the spec: [getScrollPercentage] of [./util] is missing.
    The Percentage Mapper turns scroll offset, scrollable height and
    viewport height into how far through the scrollable range the viewport
    sits, and is 0 where the scrollable height equals the viewport height. *)
Definition getScrollPercentage (element : Dom.HTMLElement) : JS.number :=
  let scrollTop := Dom.scrollTop element in
  let scrollHeight := Dom.scrollHeight element in
  let clientHeight := Dom.clientHeight element in
  if JS.strict_eq scrollHeight clientHeight then JS.zero
  else JS.div scrollTop (JS.sub scrollHeight clientHeight).

Record LocationItem : Type := {
  index : JS.number;
  offsetPtg : JS.number;
}.

(** Modelled from the spec: [getLocationItem] of [./util] is missing.
    The Location Estimator returns [floor(percentage × N)] clamped to
    [[0, N−1]], and the remainder of [percentage × N] beyond that index. *)
Definition getLocationItem (scrollPtg total : JS.number) : LocationItem :=
  let position := JS.mul scrollPtg total in
  let itemIndex := JS.max JS.zero (JS.min (JS.sub total JS.one) (JS.floor position)) in
  {| index := itemIndex; offsetPtg := JS.sub position itemIndex |}.

(** Modelled from the spec: [getNodeHeight] of [./util] is missing.
    The Height Cache reads the committed pixel height of a rendered node; a
    missing node measures 0, as every missing measurement does. *)
Definition getNodeHeight (node : option Dom.HTMLElement) : JS.number :=
  match node with
  | Some ele => Dom.offsetHeight ele
  | None => JS.zero
  end.

(** ** The component *)

Inductive Status : Type := NONE | MEASURE_START | MEASURE_DONE.

#[global] Instance Status_eq_dec : EqDecision Status.
Proof. solve_decision. Defined.

Record ListState : Type := {
  status : Status;
  scrollTop : option JS.number;
  scrollPtg : JS.number;
  itemIndex : JS.number;
  itemOffsetPtg : JS.number;
  startIndex : JS.number;
  endIndex : JS.number;
  startItemTop : JS.number;
}.

Definition initialState : ListState :=
  {| status := NONE;
     scrollTop := None;
     scrollPtg := JS.zero;
     itemIndex := JS.zero;
     itemOffsetPtg := JS.zero;
     startIndex := JS.zero;
     endIndex := JS.zero;
     startItemTop := JS.zero |}.

Section Component.

(** What the caller's render function produces is opaque to the list. *)
Context {ReactNode : Type}.

(** The props the component reads, after [defaultProps] have been filled
    in; [style], [component] and the pass-through attributes only travel to
    the container. *)
Record ListProps : Type := {
  children : JS.value → ReactNode;
  dataSource : list JS.value;
  height : option JS.number;
  itemHeight : JS.number;
  itemKey : option string;
}.

(** [static defaultProps = { itemHeight: 15, dataSource: [] }]. *)
Definition withDefaultProps (renderFunc : JS.value → ReactNode)
    (data : option (list JS.value)) (h ih : option JS.number)
    (k : option string) : ListProps :=
  {| children := renderFunc;
     dataSource := default [] data;
     height := h;
     itemHeight := default (JS.of_Z 15) ih;
     itemKey := k |}.

(** A child after [React.cloneElement(node, { key, ref })]: the [ref]
    stores the mounted element under [key] in [itemElements]. *)
Record Child : Type := {
  node : ReactNode;
  key : JS.value;
}.

(** What [render] returns: the container with or without the scroll
    handler and the [ref], and the [Filler] with its props and children. *)
Record View : Type := {
  onScrollAttached : bool;
  refAttached : bool;
  fillerHeight : option JS.number;
  fillerOffset : option JS.number;
  fillerChildren : list Child;
}.

(** The instance: [this.props], [this.state], [this.listRef.current], the
    two objects used as maps from element key to element and to measured
    height, and what has been written to the console. *)
Record ListInstance : Type := {
  props : ListProps;
  state : ListState;
  listRef : option Dom.HTMLElement;
  itemElements : gmap string Dom.HTMLElement;
  itemElementHeights : gmap string JS.number;
  console : list string;
}.

Definition length_of (p : ListProps) : JS.number :=
  JS.of_nat (length (dataSource p)).

Definition getItemKey (p : ListProps) (index : JS.number) : JS.value :=
  let item := JS.array_get (dataSource p) index in
  if JS.truthy_value item && JS.truthy_string (itemKey p)
  then JS.get_property item (default "" (itemKey p))
  else JS.VNumber index.

Definition eleKeyOf (p : ListProps) (index : JS.number) : string :=
  JS.to_property_key (getItemKey p index).

Definition with_state (inst : ListInstance) (st : ListState) : ListInstance :=
  {| props := props inst;
     state := st;
     listRef := listRef inst;
     itemElements := itemElements inst;
     itemElementHeights := itemElementHeights inst;
     console := console inst |}.

(** The three counts that [onScroll] derives before it selects the
    window. *)
Definition visibleCount (p : ListProps) : JS.number :=
  JS.ceil (JS.div (JS.to_number (height p)) (itemHeight p)).

Definition beforeCount (p : ListProps) (scrollPtg : JS.number) : JS.number :=
  JS.ceil (JS.mul scrollPtg (visibleCount p)).

Definition afterCount (p : ListProps) (scrollPtg : JS.number) : JS.number :=
  JS.ceil (JS.mul (JS.sub JS.one scrollPtg) (visibleCount p)).

(** Phase 2. *)
Definition onScroll (inst : ListInstance) : JS.outcome ListInstance :=
  let p := props inst in
  match listRef inst with
  | None => JS.TypeError
  | Some current =>
      let scrollTop' := Dom.scrollTop current in
      if from_option (JS.strict_eq scrollTop') false (scrollTop (state inst))
      then JS.Ok inst
      else
        let scrollPtg' := getScrollPercentage current in
        let located := getLocationItem scrollPtg' (length_of p) in
        let beforeCount := beforeCount p scrollPtg' in
        let afterCount := afterCount p scrollPtg' in
        JS.Ok (with_state inst
          {| status := MEASURE_START;
             scrollTop := Some scrollTop';
             scrollPtg := scrollPtg';
             itemIndex := index located;
             itemOffsetPtg := offsetPtg located;
             startIndex := JS.max JS.zero (JS.sub (index located) beforeCount);
             endIndex :=
               JS.min (JS.sub (length_of p) JS.one)
                      (JS.add (index located) afterCount);
             startItemTop := startItemTop (state inst) |})
  end.

(** Phase 1. *)
Definition componentDidMount (inst : ListInstance) : JS.outcome ListInstance :=
  match listRef inst with
  | None => JS.TypeError
  | Some current =>
      onScroll
        {| props := props inst;
           state := state inst;
           listRef := Some (Dom.set_scrollTop current JS.zero);
           itemElements := itemElements inst;
           itemElementHeights := itemElementHeights inst;
           console := console inst |}
  end.

(** One round of the first loop of [componentDidUpdate]. *)
Definition recordHeight (inst : ListInstance) (index : JS.number)
    (heights : gmap string JS.number) : gmap string JS.number :=
  let eleKey := eleKeyOf (props inst) index in
  <[eleKey := getNodeHeight (itemElements inst !! eleKey)]> heights.

(** One round of the second loop. *)
Definition stepBack (p : ListProps) (heights : gmap string JS.number)
    (index : JS.number) (top : JS.number) : JS.number :=
  JS.sub top (JS.or_zero (heights !! eleKeyOf p index)).

(** Phases 4 and 5. *)
Definition componentDidUpdate (inst : ListInstance) (prevProps : ListProps)
    : JS.outcome ListInstance :=
  let st := state inst in
  let p := props inst in
  inst' ←
    (if decide (status st = MEASURE_START) then
       heights ← JS.for_up (startIndex st) (endIndex st)
                   (recordHeight inst) (itemElementHeights inst);
       match listRef inst with
       | None => JS.TypeError
       | Some current =>
           let locatedItemHeight :=
             JS.or_zero (heights !! eleKeyOf p (itemIndex st)) in
           let locatedItemTop :=
             JS.mul (scrollPtg st) (Dom.clientHeight current) in
           let locatedItemOffset :=
             JS.mul (itemOffsetPtg st) locatedItemHeight in
           let locatedItemMergedTop :=
             JS.sub (JS.add (Dom.scrollTop current) locatedItemTop)
                    locatedItemOffset in
           top ← JS.for_down (JS.sub (itemIndex st) JS.one) (startIndex st)
                   (stepBack p heights) locatedItemMergedTop;
           JS.Ok
             {| props := p;
                state :=
                  {| status := MEASURE_DONE;
                     scrollTop := scrollTop st;
                     scrollPtg := scrollPtg st;
                     itemIndex := itemIndex st;
                     itemOffsetPtg := itemOffsetPtg st;
                     startIndex := startIndex st;
                     endIndex := endIndex st;
                     startItemTop := top |};
                listRef := listRef inst;
                itemElements := itemElements inst;
                itemElementHeights := heights;
                console := console inst |}
       end
     else JS.Ok inst);
  if decide (length (dataSource prevProps) = length (dataSource p))
  then JS.Ok inst'
  else
    JS.Ok
      {| props := props inst';
         state := state inst';
         listRef := listRef inst';
         itemElements := itemElements inst';
         itemElementHeights := itemElementHeights inst';
         console := "!!!!!!" :: console inst' |}.

(** Phase 4, the children. *)
Definition renderChildren (p : ListProps) (list : list JS.value)
    (startIndex : JS.number) (renderFunc : JS.value → ReactNode)
    : Datatypes.list Child :=
  imap (λ index item,
          let node := renderFunc item in
          let eleIndex := JS.add startIndex (JS.of_nat index) in
          let eleKey := getItemKey p eleIndex in
          {| node := node; key := eleKey |}) list.

Definition render (inst : ListInstance) : View :=
  let p := props inst in
  if JS.is_undefined (height p)
     || JS.le (JS.mul (length_of p) (itemHeight p)) (JS.to_number (height p))
  then
    {| onScrollAttached := false;
       refAttached := false;
       fillerHeight := height p;
       fillerOffset := None;
       fillerChildren := renderChildren p (dataSource p) JS.zero (children p) |}
  else
    let st := state inst in
    let contentHeight := JS.mul (length_of p) (itemHeight p) in
    {| onScrollAttached := true;
       refAttached := true;
       fillerHeight := Some contentHeight;
       fillerOffset :=
         Some (if decide (status st = MEASURE_DONE) then startItemTop st
               else JS.zero);
       fillerChildren :=
         renderChildren p
           (JS.slice (dataSource p) (startIndex st) (JS.add (endIndex st) JS.one))
           (startIndex st) (children p) |}.

End Component.

(** ** The host's side of the lifecycle

    React's contract as the component relies on it: a commit attaches the
    container to [listRef] when the rendered container carries the [ref]
    (and detaches it otherwise), calls the [ref]s of the previous render
    with [null] and hands every rendered child's mounted element to that
    child's [ref], so that [itemElements] holds the elements of the current
    children, and is followed by [componentDidUpdate]; a [setState] inside
    a lifecycle method or a handler leads to one more render and commit. *)

Section Lifecycle.

Context {ReactNode : Type}.

Record Host : Type := {
  container : Dom.HTMLElement;
  layout : string → Dom.HTMLElement;
}.

Definition construct (p : ListProps) : @ListInstance ReactNode :=
  {| props := p;
     state := initialState;
     listRef := None;
     itemElements := ∅;
     itemElementHeights := ∅;
     console := [] |}.

Definition attach (host : Host) (c : @Child ReactNode)
    (elements : gmap string Dom.HTMLElement) : gmap string Dom.HTMLElement :=
  let eleKey := JS.to_property_key (key c) in
  <[eleKey := layout host eleKey]> elements.

Definition commit (host : Host) (inst : @ListInstance ReactNode) (view : View)
    : ListInstance :=
  {| props := props inst;
     state := state inst;
     listRef :=
       if refAttached view
       then Some (default (container host) (listRef inst))
       else None;
     itemElements := foldr (attach host) ∅ (fillerChildren view);
     itemElementHeights := itemElementHeights inst;
     console := console inst |}.

Definition update (host : Host) (prevProps : ListProps)
    (inst : @ListInstance ReactNode) : JS.outcome ListInstance :=
  componentDidUpdate (commit host inst (render inst)) prevProps.

(** The render that a [setState] asks for, and the one that the
    [setState] of its [componentDidUpdate] asks for. *)
Definition flush (host : Host) (inst : @ListInstance ReactNode)
    : JS.outcome ListInstance :=
  inst' ← update host (props inst) inst;
  update host (props inst') inst'.

Definition mount (host : Host) (p : ListProps) : JS.outcome (@ListInstance ReactNode) :=
  let inst := construct p in
  inst' ← componentDidMount (commit host inst (render inst));
  flush host inst'.

(** The user scrolls the container to [top]; the event reaches the
    component only through the handler that [render] attached. *)
Definition scrollTo (host : Host) (top : JS.number)
    (inst : @ListInstance ReactNode) : JS.outcome ListInstance :=
  match listRef inst with
  | Some current =>
      if onScrollAttached (render inst) then
        inst' ← onScroll
          {| props := props inst;
             state := state inst;
             listRef := Some (Dom.set_scrollTop current top);
             itemElements := itemElements inst;
             itemElementHeights := itemElementHeights inst;
             console := console inst |};
        flush host inst'
      else JS.Ok inst
  | None => JS.Ok inst
  end.

(** The parent re-renders the list with new props. *)
Definition receiveProps (host : Host) (p : ListProps)
    (inst : @ListInstance ReactNode) : JS.outcome ListInstance :=
  update host (props inst)
    {| props := p;
       state := state inst;
       listRef := listRef inst;
       itemElements := itemElements inst;
       itemElementHeights := itemElementHeights inst;
       console := console inst |}.

End Lifecycle.

(** ** The same methods in binary64

    What the rational reading of numbers leaves out is the rounding of
    every operation.  This module reads [number] as the IEEE 754 binary64
    format, with the machine's own operations, and embeds once more the
    part of the component that computes the corrected offset: the three
    [./util] helpers, [getItemKey], [onScroll] and [componentDidUpdate]. *)

Module Binary64.

Import PrimFloat.PrimFloatNotations.
Local Open Scope float_scope.

Definition number : Set := PrimFloat.float.

(** The value of a number, exactly and in lowest terms: every finite
    binary64 number is a rational. *)
Definition exact (x : number) : JS.number :=
  match FloatOps.Prim2SF x with
  | SpecFloat.S754_nan => JS.NaN
  | SpecFloat.S754_infinity false => JS.Infinity
  | SpecFloat.S754_infinity true => JS.NegInfinity
  | SpecFloat.S754_zero _ => JS.Finite 0%Q
  | SpecFloat.S754_finite s m e =>
      let n := if s then Z.neg m else Z.pos m in
      JS.Finite
        (Qred (if (0 <=? e)%Z then inject_Z (n * 2 ^ e)
               else Qmake n (Z.to_pos (2 ^ (- e)))))
  end.

(** The number nearest to an integer; below [2^53] it is the integer. *)
Definition of_Z (z : Z) : number :=
  FloatOps.SF2Prim
    match z with
    | Z0 => SpecFloat.S754_zero false
    | Zpos m => SpecFloat.S754_finite false m 0
    | Zneg m => SpecFloat.S754_finite true m 0
    end.

Definition of_nat (n : nat) : number := of_Z (Z.of_nat n).

(** [Math.floor]: a number with no fractional bits is its own floor; any
    other finite number lies below [2^53], where its floor is a number. *)
Definition floor (x : number) : number :=
  match FloatOps.Prim2SF x, exact x with
  | SpecFloat.S754_finite _ _ e, JS.Finite q =>
      if (0 <=? e)%Z then x else of_Z (Qfloor q)
  | _, _ => x
  end.

(** [Math.ceil], with the sign of a zero result as the language has it. *)
Definition ceil (x : number) : number := - floor (- x).

(** [Math.max], [Math.min]: [NaN] if an argument is; of two zeros the
    positive one is the larger. *)
Definition max (x y : number) : number :=
  if PrimFloat.is_nan x || PrimFloat.is_nan y then PrimFloat.nan
  else if x <? y then y
  else if y <? x then x
  else if PrimFloat.is_zero x then x + y
  else x.

Definition min (x y : number) : number := - max (- x) (- y).

(** [ToBoolean], [x || 0], [ToNumber] and [=== undefined]. *)
Definition truthy (x : number) : bool :=
  negb (PrimFloat.is_nan x || PrimFloat.is_zero x).

Definition or_zero (x : option number) : number :=
  match x with
  | Some n => if truthy n then n else PrimFloat.zero
  | None => PrimFloat.zero
  end.

Definition to_number (x : option number) : number :=
  match x with Some n => n | None => PrimFloat.nan end.

(** The counting loops.  A round adds or subtracts one and rounds: that
    either leaves the counter where it was, and then the round repeats
    forever, or moves it by at least a half, so that a loop that ends takes
    no more rounds than twice the distance of its bounds, and two. *)
Fixpoint count {A} (rounds : nat) (i step bound : number) (up : bool)
    (body : number → A → A) (a : A) : JS.outcome A :=
  match rounds with
  | O => JS.Hang
  | S rounds =>
      if (if up then i <=? bound else bound <=? i) then
        if i + step =? i then JS.Hang
        else count rounds (i + step) step bound up body (body i a)
      else JS.Ok a
  end.

Definition rounds_between (lo hi : number) : nat :=
  match exact (hi - lo) with
  | JS.Finite q => S (Z.to_nat (2 * Qceiling q + 1))
  | _ => 1%nat
  end.

Definition for_up {A} (from to : number) (body : number → A → A) (a : A)
    : JS.outcome A :=
  count (rounds_between from to) from PrimFloat.one to true body a.

Definition for_down {A} (from to : number) (body : number → A → A) (a : A)
    : JS.outcome A :=
  count (rounds_between to from) from (- PrimFloat.one) to false body a.

Record HTMLElement : Type := {
  scrollTop : number;
  scrollHeight : number;
  clientHeight : number;
  offsetHeight : number;
}.

(** Modelled from the spec: [getScrollPercentage] of [./util] is missing;
    as above, in binary64. *)
Definition getScrollPercentage (element : HTMLElement) : number :=
  if scrollHeight element =? clientHeight element then PrimFloat.zero
  else scrollTop element / (scrollHeight element - clientHeight element).

Record LocationItem : Type := {
  index : number;
  offsetPtg : number;
}.

(** Modelled from the spec: [getLocationItem] of [./util] is missing; as
    above, in binary64. *)
Definition getLocationItem (scrollPtg total : number) : LocationItem :=
  let position := scrollPtg * total in
  let itemIndex := max PrimFloat.zero (min (total - PrimFloat.one) (floor position)) in
  {| index := itemIndex; offsetPtg := position - itemIndex |}.

(** Modelled from the spec: [getNodeHeight] of [./util] is missing; as
    above, in binary64. *)
Definition getNodeHeight (node : option HTMLElement) : number :=
  match node with
  | Some ele => offsetHeight ele
  | None => PrimFloat.zero
  end.

Record ListState : Type := {
  status : Status;
  lastScrollTop : option number;
  scrollPtg : number;
  itemIndex : number;
  itemOffsetPtg : number;
  startIndex : number;
  endIndex : number;
  startItemTop : number;
}.

Definition initialState : ListState :=
  {| status := NONE;
     lastScrollTop := None;
     scrollPtg := PrimFloat.zero;
     itemIndex := PrimFloat.zero;
     itemOffsetPtg := PrimFloat.zero;
     startIndex := PrimFloat.zero;
     endIndex := PrimFloat.zero;
     startItemTop := PrimFloat.zero |}.

(** The props the two methods read. *)
Record ListProps : Type := {
  dataSource : list JS.value;
  height : option number;
  itemHeight : number;
  itemKey : option string;
}.

Record ListInstance : Type := {
  props : ListProps;
  state : ListState;
  listRef : option HTMLElement;
  itemElements : gmap string HTMLElement;
  itemElementHeights : gmap string number;
  console : list string;
}.

Definition length_of (p : ListProps) : number :=
  of_nat (length (dataSource p)).

Definition getItemKey (p : ListProps) (index : number) : JS.value :=
  let item := JS.array_get (dataSource p) (exact index) in
  if JS.truthy_value item && JS.truthy_string (itemKey p)
  then JS.get_property item (default "" (itemKey p))
  else JS.VNumber (exact index).

Definition eleKeyOf (p : ListProps) (index : number) : string :=
  JS.to_property_key (getItemKey p index).

Definition onScroll (inst : ListInstance) : JS.outcome ListInstance :=
  let p := props inst in
  match listRef inst with
  | None => JS.TypeError
  | Some current =>
      let scrollTop' := scrollTop current in
      if from_option (PrimFloat.eqb scrollTop') false (lastScrollTop (state inst))
      then JS.Ok inst
      else
        let scrollPtg' := getScrollPercentage current in
        let located := getLocationItem scrollPtg' (length_of p) in
        let visibleCount := ceil (to_number (height p) / itemHeight p) in
        let beforeCount := ceil (scrollPtg' * visibleCount) in
        let afterCount := ceil ((PrimFloat.one - scrollPtg') * visibleCount) in
        JS.Ok
          {| props := p;
             state :=
               {| status := MEASURE_START;
                  lastScrollTop := Some scrollTop';
                  scrollPtg := scrollPtg';
                  itemIndex := index located;
                  itemOffsetPtg := offsetPtg located;
                  startIndex := max PrimFloat.zero (index located - beforeCount);
                  endIndex :=
                    min (length_of p - PrimFloat.one) (index located + afterCount);
                  startItemTop := startItemTop (state inst) |};
             listRef := listRef inst;
             itemElements := itemElements inst;
             itemElementHeights := itemElementHeights inst;
             console := console inst |}
  end.

Definition recordHeight (inst : ListInstance) (index : number)
    (heights : gmap string number) : gmap string number :=
  let eleKey := eleKeyOf (props inst) index in
  <[eleKey := getNodeHeight (itemElements inst !! eleKey)]> heights.

Definition stepBack (p : ListProps) (heights : gmap string number)
    (index : number) (top : number) : number :=
  top - or_zero (heights !! eleKeyOf p index).

Definition componentDidUpdate (inst : ListInstance) (prevProps : ListProps)
    : JS.outcome ListInstance :=
  let st := state inst in
  let p := props inst in
  inst' ←
    (if decide (status st = MEASURE_START) then
       heights ← for_up (startIndex st) (endIndex st)
                   (recordHeight inst) (itemElementHeights inst);
       match listRef inst with
       | None => JS.TypeError
       | Some current =>
           let locatedItemHeight :=
             or_zero (heights !! eleKeyOf p (itemIndex st)) in
           let locatedItemTop := scrollPtg st * clientHeight current in
           let locatedItemOffset := itemOffsetPtg st * locatedItemHeight in
           let locatedItemMergedTop :=
             scrollTop current + locatedItemTop - locatedItemOffset in
           top ← for_down (itemIndex st - PrimFloat.one) (startIndex st)
                   (stepBack p heights) locatedItemMergedTop;
           JS.Ok
             {| props := p;
                state :=
                  {| status := MEASURE_DONE;
                     lastScrollTop := lastScrollTop st;
                     scrollPtg := scrollPtg st;
                     itemIndex := itemIndex st;
                     itemOffsetPtg := itemOffsetPtg st;
                     startIndex := startIndex st;
                     endIndex := endIndex st;
                     startItemTop := top |};
                listRef := listRef inst;
                itemElements := itemElements inst;
                itemElementHeights := heights;
                console := console inst |}
       end
     else JS.Ok inst);
  if decide (length (dataSource prevProps) = length (dataSource p))
  then JS.Ok inst'
  else
    JS.Ok
      {| props := props inst';
         state := state inst';
         listRef := listRef inst';
         itemElements := itemElements inst';
         itemElementHeights := itemElementHeights inst';
         console := "!!!!!!" :: console inst' |}.

(** The commit between the two methods, for the rows of a window: every
    index from [first] on, [rows] of them, has its element mounted under
    its key. *)
Fixpoint mounted (p : ListProps) (layout : string → HTMLElement)
    (first : Z) (rows : nat) : gmap string HTMLElement :=
  match rows with
  | O => ∅
  | S rows =>
      let eleKey := eleKeyOf p (of_Z first) in
      <[eleKey := layout eleKey]> (mounted p layout (first + 1) rows)
  end.

Definition commit (layout : string → HTMLElement) (first : Z) (rows : nat)
    (inst : ListInstance) : ListInstance :=
  {| props := props inst;
     state := state inst;
     listRef := listRef inst;
     itemElements := mounted (props inst) layout first rows;
     itemElementHeights := itemElementHeights inst;
     console := console inst |}.

End Binary64.

(** ** Vocabulary of the statements *)

(** The element's scroll geometry is what a browser reports: finite
    numbers with [0 ≤ scrollTop ≤ scrollHeight − clientHeight]. *)
Inductive scrollable (current : Dom.HTMLElement) (s sh ch : Q) : Prop :=
| Scrollable :
    Dom.scrollTop current = JS.Finite s →
    Dom.scrollHeight current = JS.Finite sh →
    Dom.clientHeight current = JS.Finite ch →
    0 <= s <= sh - ch →
    scrollable current s sh ch.

(** The integer reading of the located index and of the two counts. *)
Definition locatedZ (pq : Q) (N : Z) : Z :=
  Z.max 0 (Z.min (N - 1) (Qfloor (pq * inject_Z N))).

Definition beforeZ (pq : Q) (vc : Z) : Z := Qceiling (pq * inject_Z vc).

Definition afterZ (pq : Q) (vc : Z) : Z := Qceiling ((1 - pq) * inject_Z vc).

Section Vocabulary.

Context {ReactNode : Type}.

(** Viewport height and nominal item height are pixel magnitudes. *)
Inductive pixel_props (p : @ListProps ReactNode) (H h : Q) : Prop :=
| PixelProps :
    height p = Some (JS.Finite H) →
    itemHeight p = JS.Finite h →
    0 <= H →
    0 < h →
    pixel_props p H h.

(** The test at the head of [render]. *)
Definition fast_path (p : @ListProps ReactNode) : bool :=
  JS.is_undefined (height p)
  || JS.le (JS.mul (length_of p) (itemHeight p)) (JS.to_number (height p)).

(** The test at the head of [onScroll]: the event is accepted when the
    reported offset is not the last processed one. *)
Definition accepted (inst : @ListInstance ReactNode) (current : Dom.HTMLElement)
    : bool :=
  negb (from_option (JS.strict_eq (Dom.scrollTop current)) false
          (scrollTop (state inst))).

(** The instance as the handler finds it once the container has been
    scrolled to [top]. *)
Definition scrolled (top : JS.number) (inst : @ListInstance ReactNode)
    : ListInstance :=
  {| props := props inst;
     state := state inst;
     listRef := (λ current, Dom.set_scrollTop current top) <$> listRef inst;
     itemElements := itemElements inst;
     itemElementHeights := itemElementHeights inst;
     console := console inst |}.

(** The number of items in the window [[startIndex, endIndex]]. *)
Definition windowSize (st : ListState) : JS.number :=
  JS.add (JS.sub (endIndex st) (startIndex st)) JS.one.

End Vocabulary.

(** The state an accepted scroll event stores, read over the integers. *)
Definition selected (st0 : ListState) (top : JS.number) (pq : Q) (N vc : Z)
    : ListState :=
  let i := locatedZ pq N in
  {| status := MEASURE_START;
     scrollTop := Some top;
     scrollPtg := JS.Finite pq;
     itemIndex := JS.of_Z i;
     itemOffsetPtg := JS.Finite (pq * inject_Z N - inject_Z i);
     startIndex := JS.of_Z (Z.max 0 (i - beforeZ pq vc));
     endIndex := JS.of_Z (Z.min (N - 1) (i + afterZ pq vc));
     startItemTop := startItemTop st0 |}.

(** The sum of [f] over the [n] integers from [hi] downwards. *)
Fixpoint sum_below (f : Z → Q) (hi : Z) (n : nat) : Q :=
  match n with
  | O => 0
  | S n => f hi + sum_below f (hi - 1) n
  end.

(** ** Sample configurations *)

Definition uniformHost (contentHeight viewport itemPx : Z) : Host :=
  {| container :=
       {| Dom.scrollTop := JS.zero;
          Dom.scrollHeight := JS.of_Z contentHeight;
          Dom.clientHeight := JS.of_Z viewport;
          Dom.offsetHeight := JS.of_Z viewport |};
     layout := λ _,
       {| Dom.scrollTop := JS.zero;
          Dom.scrollHeight := JS.of_Z itemPx;
          Dom.clientHeight := JS.of_Z itemPx;
          Dom.offsetHeight := JS.of_Z itemPx |} |}.

Definition rows (n : nat) : list JS.value :=
  (λ i, JS.VObject [("id", JS.VString (pretty i))]) <$> seq 0 n.

Definition label (item : JS.value) : string :=
  JS.to_property_key (JS.get_property item "id").

(** A thousand rows of nominal height 15 in a viewport of 300 pixels. *)
Definition thousand : @ListProps string :=
  withDefaultProps label (Some (rows 1000)) (Some (JS.of_Z 300)) None None.

Definition thousandHost : Host := uniformHost 15000 300 15.

(** The same list after the data source has shrunk to ten rows. *)
Definition ten : @ListProps string :=
  withDefaultProps label (Some (rows 10)) (Some (JS.of_Z 300)) None None.

(** The same list after the data source has shrunk to a hundred rows. *)
Definition hundred : @ListProps string :=
  withDefaultProps label (Some (rows 100)) (Some (JS.of_Z 300)) None None.

(** No props but the render function. *)
Definition bare : @ListProps string :=
  withDefaultProps label None None None None.

(** Three rows under a viewport of height zero. *)
Definition flat : @ListProps string :=
  withDefaultProps label (Some (rows 3)) (Some (JS.of_Z 0)) None None.

Definition flatHost : Host := uniformHost 45 0 15.

(** A keyed list whose first slot holds [null]. *)
Definition sparse : @ListProps string :=
  withDefaultProps label (Some (JS.VNull :: rows 2)) None None (Some "id").

(** The instance after its first commit, before [componentDidMount]. *)
Definition committed (host : Host) (p : @ListProps string) : ListInstance :=
  commit host (construct p) (render (construct p)).

Definition elementAt (top contentHeight viewport : Z) : Dom.HTMLElement :=
  {| Dom.scrollTop := JS.of_Z top;
     Dom.scrollHeight := JS.of_Z contentHeight;
     Dom.clientHeight := JS.of_Z viewport;
     Dom.offsetHeight := JS.of_Z viewport |}.

(** Fifty rows of nominal height 15 under a viewport of 60 pixels, laid out
    with heights that differ from row to row: ten pixels plus a weight read
    off the characters of the row's key. *)
Definition fifty : @ListProps string :=
  withDefaultProps label (Some (rows 50)) (Some (JS.of_Z 60)) None None.

Definition weight (k : string) : Z :=
  foldr (λ c acc, (Z.of_nat (Ascii.nat_of_ascii c) mod 5 + acc)%Z) 0%Z
        (String.list_ascii_of_string k).

Definition rowHeight (z : Z) : Z := (10 + weight (pretty z))%Z.

Definition fiftyHost : Host :=
  {| container := elementAt 0 750 60;
     layout := λ k,
       {| Dom.scrollTop := JS.zero;
          Dom.scrollHeight := JS.zero;
          Dom.clientHeight := JS.zero;
          Dom.offsetHeight := JS.of_Z (10 + weight k) |} |}.

Definition ok_or {A} (d : A) (o : JS.outcome A) : A :=
  match o with JS.Ok a => a | _ => d end.

(** The fifty rows after their first commit, scrolled to pixel 300; after
    the handler has accepted that scroll; and after the commit that
    follows, when the measurement phase is about to run. *)
Definition fiftyScrolled : @ListInstance string :=
  scrolled (JS.of_Z 300) (committed fiftyHost fifty).

Definition fiftyStarted : @ListInstance string :=
  ok_or fiftyScrolled (onScroll fiftyScrolled).

Definition fiftyMeasuring : @ListInstance string :=
  commit fiftyHost fiftyStarted (render fiftyStarted).

Definition fiftyMeasured : @ListInstance string :=
  ok_or fiftyMeasuring (componentDidUpdate fiftyMeasuring fifty).

(** The measured list after its data source has shrunk to ten rows, which
    still overflow the viewport. *)
Definition few : @ListProps string :=
  withDefaultProps label (Some (rows 10)) (Some (JS.of_Z 60)) None None.

Definition fiftyShrunk : @ListInstance string :=
  ok_or fiftyMeasured (receiveProps fiftyHost few fiftyMeasured).

(** Two rows keyed by their [id] field. *)
Definition keyed : @ListProps string :=
  withDefaultProps label (Some (rows 2)) None None (Some "id").






(** The list of a thousand rows, mounted and scrolled down to pixel 7500. *)
Definition halfway : @ListInstance string :=
  ok_or (construct thousand)
    (inst ← mount thousandHost thousand; scrollTo thousandHost (JS.of_Z 7500) inst).

(** * Facts about the number model *)

Section NumberFacts.

Lemma inject_Z_plus_eq (a b : Z) : inject_Z a + inject_Z b = inject_Z (a + b).
Proof. unfold Qplus, inject_Z; simpl. f_equal; lia. Qed.

Lemma inject_Z_minus_eq (a b : Z) : inject_Z a + - inject_Z b = inject_Z (a - b).
Proof. unfold Qplus, Qopp, inject_Z; simpl. f_equal; lia. Qed.

Lemma Qle_bool_inject_Z (a b : Z) : Qle_bool (inject_Z a) (inject_Z b) = (a <=? b)%Z.
Proof. unfold Qle_bool, inject_Z; simpl. by rewrite !Z.mul_1_r. Qed.

Lemma Qeq_bool_refl (q : Q) : Qeq_bool q q = true.
Proof. apply Qeq_bool_iff; reflexivity. Qed.

Lemma Qeq_bool_false (a b : Q) : ¬ a == b → Qeq_bool a b = false.
Proof.
  intros Hne. destruct (Qeq_bool a b) eqn:E; [|reflexivity].
  apply Qeq_bool_iff in E. contradiction.
Qed.

Lemma Qle_bool_true (a b : Q) : a <= b → Qle_bool a b = true.
Proof. apply Qle_bool_iff. Qed.

Lemma Qle_bool_false (a b : Q) : b < a → Qle_bool a b = false.
Proof.
  intros Hlt. destruct (Qle_bool a b) eqn:E; [|reflexivity].
  apply Qle_bool_iff in E. exfalso; lra.
Qed.

Lemma of_Z_add (a b : Z) : JS.add (JS.of_Z a) (JS.of_Z b) = JS.of_Z (a + b).
Proof. unfold JS.of_Z; simpl. by rewrite inject_Z_plus_eq. Qed.

Lemma of_Z_sub (a b : Z) : JS.sub (JS.of_Z a) (JS.of_Z b) = JS.of_Z (a - b).
Proof. unfold JS.of_Z, JS.sub; simpl. by rewrite inject_Z_minus_eq. Qed.

Lemma of_Z_max (a b : Z) : JS.max (JS.of_Z a) (JS.of_Z b) = JS.of_Z (Z.max a b).
Proof.
  unfold JS.of_Z; simpl. rewrite Qle_bool_inject_Z.
  destruct (Z.leb_spec a b); do 2 f_equal; lia.
Qed.

Lemma of_Z_min (a b : Z) : JS.min (JS.of_Z a) (JS.of_Z b) = JS.of_Z (Z.min a b).
Proof.
  unfold JS.of_Z; simpl. rewrite Qle_bool_inject_Z.
  destruct (Z.leb_spec a b); do 2 f_equal; lia.
Qed.

Lemma of_Z_le (a b : Z) : JS.le (JS.of_Z a) (JS.of_Z b) = (a <=? b)%Z.
Proof. unfold JS.of_Z; simpl. apply Qle_bool_inject_Z. Qed.

Lemma of_Z_leq (a b : Z) : JS.leq (JS.of_Z a) (JS.of_Z b) ↔ (a ≤ b)%Z.
Proof. unfold JS.leq. rewrite of_Z_le. apply Z.leb_le. Qed.

Lemma Qfloor_inject_Z_minus (a b : Z) : Qfloor (inject_Z b - inject_Z a) = (b - a)%Z.
Proof. unfold Qminus. rewrite inject_Z_minus_eq. apply Qfloor_Z. Qed.

Lemma trips_inject_Z (a b : Z) :
  JS.trips (inject_Z a) (inject_Z b) = Z.to_nat (b - a + 1).
Proof.
  unfold JS.trips. rewrite Qle_bool_inject_Z, Qfloor_inject_Z_minus.
  destruct (Z.leb_spec a b); lia.
Qed.

Lemma as_index_of_Z (z : Z) :
  JS.as_index (JS.of_Z z) = if (0 <=? z)%Z then Some (Z.to_nat z) else None.
Proof.
  unfold JS.as_index, JS.of_Z, JS.is_integer. rewrite Qfloor_Z, Qeq_bool_refl.
  reflexivity.
Qed.

Lemma to_string_of_Z (z : Z) : JS.to_string (JS.of_Z z) = pretty z.
Proof.
  unfold JS.to_string, JS.of_Z, JS.is_integer.
  by rewrite Qfloor_Z, Qeq_bool_refl.
Qed.

End NumberFacts.

(** * The component's methods *)

Section MethodFacts.

Context {ReactNode : Type}.
Implicit Types (inst : @ListInstance ReactNode) (p : @ListProps ReactNode).

Lemma getItemKey_reads_field p index name :
  itemKey p = Some name →
  name ≠ "" →
  JS.truthy_value (JS.array_get (dataSource p) index) = true →
  getItemKey p index = JS.get_property (JS.array_get (dataSource p) index) name.
Proof.
  intros Hk Hne Hitem. unfold getItemKey. rewrite Hitem, Hk. simpl.
  destruct (String.eqb_spec name ""); [contradiction | reflexivity].
Qed.

Lemma getItemKey_without_itemKey p index :
  JS.truthy_string (itemKey p) = false → getItemKey p index = JS.VNumber index.
Proof. intros Hk. unfold getItemKey. by rewrite Hk, andb_false_r. Qed.

Lemma onScroll_detached inst : listRef inst = None → onScroll inst = JS.TypeError.
Proof. intros Href. unfold onScroll. by rewrite Href. Qed.

Lemma onScroll_accepted inst current :
  listRef inst = Some current →
  accepted inst current = true →
  onScroll inst =
    JS.Ok (with_state inst
      (let ptg := getScrollPercentage current in
       let located := getLocationItem ptg (length_of (props inst)) in
       {| status := MEASURE_START;
          scrollTop := Some (Dom.scrollTop current);
          scrollPtg := ptg;
          itemIndex := index located;
          itemOffsetPtg := offsetPtg located;
          startIndex :=
            JS.max JS.zero (JS.sub (index located) (beforeCount (props inst) ptg));
          endIndex :=
            JS.min (JS.sub (length_of (props inst)) JS.one)
                   (JS.add (index located) (afterCount (props inst) ptg));
          startItemTop := startItemTop (state inst) |})).
Proof.
  intros Href Hacc. unfold onScroll, accepted in *. rewrite Href.
  apply negb_true_iff in Hacc. by rewrite Hacc.
Qed.

Lemma render_fast inst :
  fast_path (props inst) = true →
  render inst =
    {| onScrollAttached := false;
       refAttached := false;
       fillerHeight := height (props inst);
       fillerOffset := None;
       fillerChildren :=
         renderChildren (props inst) (dataSource (props inst)) JS.zero
           (children (props inst)) |}.
Proof. intros Hf. unfold render. unfold fast_path in Hf. by rewrite Hf. Qed.

Lemma render_virtual inst :
  fast_path (props inst) = false →
  render inst =
    {| onScrollAttached := true;
       refAttached := true;
       fillerHeight :=
         Some (JS.mul (length_of (props inst)) (itemHeight (props inst)));
       fillerOffset :=
         Some (if decide (status (state inst) = MEASURE_DONE)
               then startItemTop (state inst) else JS.zero);
       fillerChildren :=
         renderChildren (props inst)
           (JS.slice (dataSource (props inst)) (startIndex (state inst))
              (JS.add (endIndex (state inst)) JS.one))
           (startIndex (state inst)) (children (props inst)) |}.
Proof. intros Hf. unfold render. unfold fast_path in Hf. by rewrite Hf. Qed.

Lemma renderChildren_nodes p items start renderFunc :
  node <$> renderChildren p items start renderFunc = renderFunc <$> items.
Proof.
  unfold renderChildren. apply list_eq; intros i.
  rewrite !list_lookup_fmap, list_lookup_imap.
  by destruct (items !! i).
Qed.

Lemma renderChildren_length p items start renderFunc :
  length (renderChildren p items start renderFunc) = length items.
Proof. unfold renderChildren. apply length_imap. Qed.

Lemma renderChildren_lookup p items start renderFunc i item :
  items !! i = Some item →
  renderChildren p items start renderFunc !! i =
    Some {| node := renderFunc item;
            key := getItemKey p (JS.add start (JS.of_nat i)) |}.
Proof. intros Hi. unfold renderChildren. by rewrite list_lookup_imap, Hi. Qed.

(** [componentDidUpdate] returns its instance untouched, up to the line it
    logs, unless the phase is [MEASURE_START]. *)
Lemma componentDidUpdate_idle inst prevProps :
  status (state inst) ≠ MEASURE_START →
  ∃ inst', componentDidUpdate inst prevProps = JS.Ok inst'
           ∧ state inst' = state inst ∧ props inst' = props inst
           ∧ listRef inst' = listRef inst.
Proof.
  intros Hs. unfold componentDidUpdate.
  destruct (decide (status (state inst) = MEASURE_START)); [contradiction|].
  simpl. case_decide; eauto.
Qed.

(** Whatever the phase, [componentDidUpdate] leaves the window bounds, the
    located item and the processed offset as they were. *)
Lemma componentDidUpdate_keeps_window inst prevProps inst' :
  componentDidUpdate inst prevProps = JS.Ok inst' →
  startIndex (state inst') = startIndex (state inst)
  ∧ endIndex (state inst') = endIndex (state inst)
  ∧ itemIndex (state inst') = itemIndex (state inst)
  ∧ scrollTop (state inst') = scrollTop (state inst)
  ∧ props inst' = props inst
  ∧ listRef inst' = listRef inst.
Proof.
  unfold componentDidUpdate.
  destruct (decide (status (state inst) = MEASURE_START)) as [Hs|Hs]; simpl.
  - destruct (JS.for_up _ _ _ _) as [heights| |]; simpl; try discriminate.
    destruct (listRef inst) as [current|] eqn:Href; try discriminate.
    destruct (JS.for_down _ _ _ _) as [top| |]; simpl; try discriminate.
    case_decide; intros [= <-]; simpl; repeat split; auto.
  - case_decide; intros [= <-]; simpl; repeat split; auto.
Qed.

Lemma componentDidUpdate_done inst prevProps inst' :
  status (state inst) = MEASURE_START →
  componentDidUpdate inst prevProps = JS.Ok inst' →
  status (state inst') = MEASURE_DONE.
Proof.
  intros Hs. unfold componentDidUpdate.
  destruct (decide (status (state inst) = MEASURE_START)); [|contradiction].
  simpl.
  destruct (JS.for_up _ _ _ _) as [heights| |]; simpl; try discriminate.
  destruct (listRef inst) as [current|] eqn:Href; try discriminate.
  destruct (JS.for_down _ _ _ _) as [top| |]; simpl; try discriminate.
  case_decide; intros [= <-]; reflexivity.
Qed.

Lemma mount_fast_path_throws (host : Host) p :
  fast_path p = true → mount host p = JS.TypeError.
Proof.
  intros Hf. unfold mount.
  rewrite (render_fast (construct p)) by exact Hf. reflexivity.
Qed.

End MethodFacts.

(** * Arithmetic of the window *)

Section WindowArithmetic.

Variables (pq : Q) (N vc : Z).
Hypothesis ptg_range : 0 <= pq <= 1.
Hypothesis vc_nonneg : (0 ≤ vc)%Z.

Lemma Zle_of_Qlt_succ (a b : Z) : inject_Z a - 1 < inject_Z b + 1 → (a ≤ b + 1)%Z.
Proof.
  intros Hlt.
  assert (Hq : inject_Z a < inject_Z (b + 2)).
  { rewrite inject_Z_plus. change (inject_Z 2) with 2. lra. }
  rewrite <- Zlt_Qlt in Hq. lia.
Qed.

Lemma locatedZ_range : (1 ≤ N)%Z → (0 ≤ locatedZ pq N ≤ N - 1)%Z.
Proof. unfold locatedZ. lia. Qed.

Lemma beforeZ_nonneg : (0 ≤ beforeZ pq vc)%Z.
Proof.
  unfold beforeZ. rewrite <- (Qceiling_Z 0). apply Qceiling_resp_le.
  assert (0 <= inject_Z vc) by (change 0 with (inject_Z 0); by rewrite <- Zle_Qle).
  change (inject_Z 0) with 0. nra.
Qed.

Lemma afterZ_nonneg : (0 ≤ afterZ pq vc)%Z.
Proof.
  unfold afterZ. rewrite <- (Qceiling_Z 0). apply Qceiling_resp_le.
  assert (0 <= inject_Z vc) by (change 0 with (inject_Z 0); by rewrite <- Zle_Qle).
  change (inject_Z 0) with 0. nra.
Qed.

(** The two counts together cover the visible count. *)
Lemma counts_cover : (vc ≤ beforeZ pq vc + afterZ pq vc)%Z.
Proof.
  unfold beforeZ, afterZ.
  pose proof (Qle_ceiling (pq * inject_Z vc)) as Hb.
  pose proof (Qle_ceiling ((1 - pq) * inject_Z vc)) as Ha.
  rewrite Zle_Qle, inject_Z_plus. lra.
Qed.

(** When the visible count does not exceed the item count, clamping at
    either end drops at most the one item of slack. *)
Lemma beforeZ_le_located :
  (1 ≤ N)%Z → (vc ≤ N)%Z → (beforeZ pq vc ≤ locatedZ pq N + 1)%Z.
Proof.
  intros HN Hvc. unfold beforeZ, locatedZ.
  pose proof (Qceiling_lt (pq * inject_Z vc)) as Hb.
  pose proof (Qlt_floor (pq * inject_Z N)) as Hf.
  assert (HvcN : inject_Z vc <= inject_Z N) by (by rewrite <- Zle_Qle).
  assert (H0 : 0 <= inject_Z vc) by (change 0 with (inject_Z 0); by rewrite <- Zle_Qle).
  set (b := Qceiling (pq * inject_Z vc)) in *.
  set (f := Qfloor (pq * inject_Z N)) in *.
  rewrite <- inject_Z_minus_eq in Hb. rewrite inject_Z_plus in Hf.
  change (inject_Z 1) with 1 in *.
  assert (Hbf : (b ≤ f + 1)%Z) by (apply Zle_of_Qlt_succ; nra).
  assert (HbN : (b ≤ N)%Z).
  { assert (Hq : inject_Z b < inject_Z (N + 1)).
    { rewrite inject_Z_plus. change (inject_Z 1) with 1. nra. }
    rewrite <- Zlt_Qlt in Hq. lia. }
  lia.
Qed.

Lemma located_plus_afterZ :
  (1 ≤ N)%Z → (vc ≤ N)%Z → (locatedZ pq N + afterZ pq vc ≤ N)%Z.
Proof.
  intros HN Hvc. unfold afterZ, locatedZ.
  pose proof (Qceiling_lt ((1 - pq) * inject_Z vc)) as Ha.
  pose proof (Qfloor_le (pq * inject_Z N)) as Hf.
  assert (HvcN : inject_Z vc <= inject_Z N) by (by rewrite <- Zle_Qle).
  assert (H0 : 0 <= inject_Z vc) by (change 0 with (inject_Z 0); by rewrite <- Zle_Qle).
  assert (Hf0 : (0 ≤ Qfloor (pq * inject_Z N))%Z).
  { rewrite <- (Qfloor_Z 0). apply Qfloor_resp_le. change (inject_Z 0) with 0. nra. }
  set (a := Qceiling ((1 - pq) * inject_Z vc)) in *.
  set (f := Qfloor (pq * inject_Z N)) in *.
  rewrite <- inject_Z_minus_eq in Ha. change (inject_Z 1) with 1 in *.
  assert (Haf : (a + f ≤ N)%Z).
  { assert (Hq : inject_Z (a + f) < inject_Z (N + 1)).
    { rewrite !inject_Z_plus. change (inject_Z 1) with 1. nra. }
    rewrite <- Zlt_Qlt in Hq. lia. }
  lia.
Qed.

Lemma window_order :
  (1 ≤ N)%Z →
  let i := locatedZ pq N in
  (0 ≤ Z.max 0 (i - beforeZ pq vc) ≤ i)%Z
  ∧ (i ≤ Z.min (N - 1) (i + afterZ pq vc) ≤ N - 1)%Z.
Proof.
  intros HN i.
  pose proof (locatedZ_range HN). pose proof beforeZ_nonneg.
  pose proof afterZ_nonneg. subst i. lia.
Qed.

Lemma window_covers :
  (1 ≤ N)%Z → (vc ≤ N)%Z →
  let i := locatedZ pq N in
  (vc ≤ Z.min (N - 1) (i + afterZ pq vc) - Z.max 0 (i - beforeZ pq vc) + 1)%Z.
Proof.
  intros HN Hvc i.
  pose proof (locatedZ_range HN). pose proof beforeZ_nonneg.
  pose proof afterZ_nonneg. pose proof counts_cover.
  pose proof (beforeZ_le_located HN Hvc). pose proof (located_plus_afterZ HN Hvc).
  subst i. lia.
Qed.

Lemma window_covers_unclamped :
  let i := locatedZ pq N in
  (0 ≤ i - beforeZ pq vc)%Z → (i + afterZ pq vc ≤ N - 1)%Z →
  (vc ≤ Z.min (N - 1) (i + afterZ pq vc) - Z.max 0 (i - beforeZ pq vc) + 1)%Z.
Proof. intros i Hs He. pose proof counts_cover. subst i. lia. Qed.

End WindowArithmetic.

(** * What an accepted scroll event stores *)

Section ScrollSpec.

Context {ReactNode : Type}.
Implicit Types (inst : @ListInstance ReactNode) (p : @ListProps ReactNode).

Lemma getScrollPercentage_spec current s sh ch :
  scrollable current s sh ch →
  ∃ pq, getScrollPercentage current = JS.Finite pq
        ∧ 0 <= pq <= 1 ∧ pq * (sh - ch) == s.
Proof.
  intros [Hs Hsh Hch Hrange]. unfold getScrollPercentage.
  rewrite Hs, Hsh, Hch. simpl.
  destruct (Qeq_bool sh ch) eqn:E.
  - apply Qeq_bool_iff in E. exists 0. split; [reflexivity|].
    split; [lra|]. rewrite E in Hrange. lra.
  - assert (Hne : ¬ sh == ch).
    { intros Heq. apply Qeq_bool_iff in Heq. congruence. }
    assert (Hd : 0 < sh + - ch) by lra.
    rewrite Qeq_bool_false by lra.
    exists (s / (sh + - ch)). split; [reflexivity|]. split; [split|].
    + apply Qle_shift_div_l; lra.
    + apply Qle_shift_div_r; lra.
    + unfold Qminus. field. lra.
Qed.

Lemma getScrollPercentage_finite current s sh ch :
  Dom.scrollTop current = JS.Finite s →
  Dom.scrollHeight current = JS.Finite sh →
  Dom.clientHeight current = JS.Finite ch →
  JS.is_finite (getScrollPercentage current) = true.
Proof.
  intros Hs Hsh Hch. unfold getScrollPercentage. rewrite Hs, Hsh, Hch. simpl.
  destruct (Qeq_bool sh ch) eqn:E; [reflexivity|].
  rewrite Qeq_bool_false; [reflexivity|].
  intros Heq. assert (sh == ch) as Heq' by lra.
  apply Qeq_bool_iff in Heq'. congruence.
Qed.

Lemma visibleCount_spec p H h :
  pixel_props p H h →
  visibleCount p = JS.of_Z (Qceiling (H / h)) ∧ (0 ≤ Qceiling (H / h))%Z.
Proof.
  intros [HH Hh H0 Hpos]. unfold visibleCount. rewrite HH, Hh. simpl.
  rewrite Qeq_bool_false by lra. split; [reflexivity|].
  rewrite <- (Qceiling_Z 0). apply Qceiling_resp_le.
  change (inject_Z 0) with 0. apply Qle_shift_div_l; lra.
Qed.

Lemma getLocationItem_spec pq N :
  getLocationItem (JS.Finite pq) (JS.of_Z N) =
    {| index := JS.of_Z (locatedZ pq N);
       offsetPtg := JS.Finite (pq * inject_Z N - inject_Z (locatedZ pq N)) |}.
Proof.
  unfold getLocationItem, locatedZ, JS.one, JS.zero.
  rewrite of_Z_sub. simpl JS.mul. simpl JS.floor.
  rewrite of_Z_min, of_Z_max. reflexivity.
Qed.

Lemma beforeCount_spec p pq vc :
  visibleCount p = JS.of_Z vc →
  beforeCount p (JS.Finite pq) = JS.of_Z (beforeZ pq vc).
Proof. intros Hvc. unfold beforeCount. by rewrite Hvc. Qed.

Lemma afterCount_spec p pq vc :
  visibleCount p = JS.of_Z vc →
  afterCount p (JS.Finite pq) = JS.of_Z (afterZ pq vc).
Proof. intros Hvc. unfold afterCount. by rewrite Hvc. Qed.

Lemma onScroll_spec inst current s sh ch H h :
  listRef inst = Some current →
  accepted inst current = true →
  scrollable current s sh ch →
  pixel_props (props inst) H h →
  ∃ pq, getScrollPercentage current = JS.Finite pq
        ∧ 0 <= pq <= 1 ∧ pq * (sh - ch) == s
        ∧ onScroll inst =
            JS.Ok (with_state inst
                     (selected (state inst) (JS.Finite s) pq
                        (Z.of_nat (length (dataSource (props inst))))
                        (Qceiling (H / h)))).
Proof.
  intros Href Hacc Hgeo Hpx.
  destruct (getScrollPercentage_spec _ _ _ _ Hgeo) as (pq & Hpq & Hrange & Hmul).
  destruct (visibleCount_spec _ _ _ Hpx) as [Hvc _].
  exists pq. split; [exact Hpq|]. split; [exact Hrange|]. split; [exact Hmul|].
  rewrite (onScroll_accepted _ _ Href Hacc). cbv zeta.
  rewrite Hpq. unfold length_of, JS.of_nat. rewrite getLocationItem_spec.
  rewrite (beforeCount_spec _ _ _ Hvc), (afterCount_spec _ _ _ Hvc). simpl index.
  simpl offsetPtg. unfold JS.zero, JS.one.
  rewrite !of_Z_sub, of_Z_add, of_Z_max, of_Z_min.
  destruct Hgeo as [-> _ _ _]. reflexivity.
Qed.

End ScrollSpec.

(** * The rendered window and what the commit attaches *)

Section RenderedWindow.

Context {ReactNode : Type}.
Implicit Types (inst : @ListInstance ReactNode) (p : @ListProps ReactNode).

Lemma relative_index_of_Z (len : nat) (z : Z) :
  (0 ≤ z ≤ Z.of_nat len)%Z → JS.relative_index len (JS.of_Z z) = Z.to_nat z.
Proof.
  intros Hz. unfold JS.relative_index, JS.of_Z, JS.truncate. simpl.
  rewrite Z.quot_1_r. destruct (Z.ltb_spec z 0); lia.
Qed.

Lemma slice_of_Z {A} (l : list A) (a e : Z) :
  (0 ≤ a)%Z → (a ≤ e + 1)%Z → (e + 1 ≤ Z.of_nat (length l))%Z →
  JS.slice l (JS.of_Z a) (JS.of_Z (e + 1)) =
    take (Z.to_nat (e + 1 - a)) (drop (Z.to_nat a) l).
Proof.
  intros Ha Hae He. unfold JS.slice.
  rewrite !relative_index_of_Z by lia. f_equal. lia.
Qed.

Lemma slice_length {A} (l : list A) (a e : Z) :
  (0 ≤ a)%Z → (a ≤ e + 1)%Z → (e + 1 ≤ Z.of_nat (length l))%Z →
  Z.of_nat (length (JS.slice l (JS.of_Z a) (JS.of_Z (e + 1)))) = (e - a + 1)%Z.
Proof.
  intros Ha Hae He. rewrite slice_of_Z by lia.
  rewrite length_take, length_drop. lia.
Qed.

Lemma slice_lookup {A} (l : list A) (a e z : Z) :
  (0 ≤ a)%Z → (e + 1 ≤ Z.of_nat (length l))%Z → (a ≤ z ≤ e)%Z →
  JS.slice l (JS.of_Z a) (JS.of_Z (e + 1)) !! Z.to_nat (z - a) = l !! Z.to_nat z.
Proof.
  intros Ha He Hz. rewrite slice_of_Z by lia.
  rewrite lookup_take_lt by lia. rewrite lookup_drop. f_equal. lia.
Qed.



(** ** The measuring loop *)

Lemma iterate_succ {A} n i step (body : JS.number → A → A) a :
  JS.iterate (S n) i step body a =
    JS.iterate n (i + step) step body (body (JS.Finite i) a).
Proof. reflexivity. Qed.

Lemma recorded_stays inst n i heights k :
  heights !! k = Some (getNodeHeight (itemElements inst !! k)) →
  JS.iterate n i 1 (recordHeight inst) heights !! k =
    Some (getNodeHeight (itemElements inst !! k)).
Proof.
  revert i heights. induction n as [|n IH]; intros i heights Hk; [exact Hk|].
  simpl. apply IH. unfold recordHeight. rewrite lookup_insert.
  case_decide as Heq; [by rewrite Heq | exact Hk].
Qed.

Lemma recorded_all inst n a heights z :
  (a ≤ z < a + Z.of_nat n)%Z →
  let k := eleKeyOf (props inst) (JS.of_Z z) in
  JS.iterate n (inject_Z a) 1 (recordHeight inst) heights !! k =
    Some (getNodeHeight (itemElements inst !! k)).
Proof.
  revert a heights. induction n as [|n IH]; intros a heights Hz k; [lia|].
  simpl. change 1 with (inject_Z 1). rewrite <- inject_Z_plus.
  destruct (decide (z = a)) as [->|Hne].
  - apply recorded_stays. unfold recordHeight.
    by rewrite lookup_insert_eq.
  - apply IH. lia.
Qed.

(** ** The backward walk *)


End RenderedWindow.

(** * The measurement phase on a uniform list *)

Lemma for_up_of_Z {A} (a e : Z) (body : JS.number → A → A) (x : A) :
  JS.for_up (JS.of_Z a) (JS.of_Z e) body x =
    JS.Ok (JS.iterate (Z.to_nat (e - a + 1)) (inject_Z a) 1 body x).
Proof. unfold JS.for_up, JS.of_Z. by rewrite trips_inject_Z. Qed.

Lemma for_down_of_Z {A} (hi lo : Z) (body : JS.number → A → A) (x : A) :
  JS.for_down (JS.of_Z hi) (JS.of_Z lo) body x =
    JS.Ok (JS.iterate (Z.to_nat (hi - lo + 1)) (inject_Z hi) (-1) body x).
Proof. unfold JS.for_down, JS.of_Z. by rewrite trips_inject_Z. Qed.


(** Enters the [MEASURE_START] branch of [componentDidUpdate] on a state
    written by an accepted scroll event, up to the end of the first loop. *)
Ltac enter_measurement Hst Href :=
  unfold componentDidUpdate; rewrite Hst, Href; unfold selected;
  cbn [status scrollTop scrollPtg itemIndex itemOffsetPtg startIndex endIndex
       startItemTop];
  destruct (decide (MEASURE_START = MEASURE_START)); [|contradiction];
  rewrite for_up_of_Z; cbn [mbind outcome_bind JS.bind].

Section Correction.

Context {ReactNode : Type}.
Implicit Types (inst : @ListInstance ReactNode) (p : @ListProps ReactNode).


End Correction.

(** * The lifecycle around a scroll event *)

Section Cycle.

Context {ReactNode : Type}.
Implicit Types (inst : @ListInstance ReactNode) (p : @ListProps ReactNode).

Lemma scroll_at_rest current s sh ch pq :
  scrollable current s sh ch → pq * (sh - ch) == s → 0 <= pq → s == 0 →
  getScrollPercentage current = JS.Finite pq → pq == 0.
Proof.
  intros [Hs Hsh Hch Hrange] Hmul Hpq Hs0. unfold getScrollPercentage.
  rewrite Hs, Hsh, Hch. simpl.
  destruct (Qeq_bool sh ch) eqn:E.
  - intros [= <-]. reflexivity.
  - intros _. assert (Hne : ¬ sh == ch).
    { intros Heq. apply Qeq_bool_iff in Heq. congruence. }
    assert (Hd : 0 < sh - ch) by lra.
    destruct (Qlt_le_dec 0 pq) as [Hlt|Hle]; [|lra].
    exfalso. assert (0 < pq * (sh - ch)) by nra. lra.
Qed.


Lemma commit_virtual (host : Host) inst :
  fast_path (props inst) = false →
  commit host inst (render inst) =
    {| props := props inst;
       state := state inst;
       listRef := Some (default (container host) (listRef inst));
       itemElements :=
         foldr (attach host) ∅
           (renderChildren (props inst)
              (JS.slice (dataSource (props inst)) (startIndex (state inst))
                 (JS.add (endIndex (state inst)) JS.one))
              (startIndex (state inst)) (children (props inst)));
       itemElementHeights := itemElementHeights inst;
       console := console inst |}.
Proof. intros Hf. unfold commit. by rewrite (render_virtual _ Hf). Qed.


(** The measurement phase returns on every window an accepted scroll event
    can have selected. *)
Lemma componentDidUpdate_measures inst current st0 top pq vc :
  let N := Z.of_nat (length (dataSource (props inst))) in
  state inst = selected st0 top pq N vc →
  listRef inst = Some current →
  ∃ inst',
    componentDidUpdate inst (props inst) = JS.Ok inst'
    ∧ status (state inst') = MEASURE_DONE
    ∧ props inst' = props inst.
Proof.
  intros N Hst Href. enter_measurement Hst Href.
  unfold JS.one. rewrite of_Z_sub, for_down_of_Z.
  cbn [mbind outcome_bind JS.bind].
  destruct (decide (length (dataSource (props inst)) = length (dataSource (props inst))));
    [|contradiction].
  eexists. split; [reflexivity|]. split; reflexivity.
Qed.

(** X3.  Once a scroll offset has been processed, the same offset is
    ignored, also after the measurement phase has run. *)
Lemma onScroll_settles inst current inst1 inst2 prevProps :
  listRef inst = Some current →
  JS.strict_eq (Dom.scrollTop current) (Dom.scrollTop current) = true →
  onScroll inst = JS.Ok inst1 →
  componentDidUpdate inst1 prevProps = JS.Ok inst2 →
  onScroll inst2 = JS.Ok inst2.
Proof.
  intros Href Hself Hon Hupd.
  assert (Hrec : listRef inst1 = Some current
                 ∧ ∃ last, scrollTop (state inst1) = Some last
                           ∧ JS.strict_eq (Dom.scrollTop current) last = true).
  { unfold onScroll in Hon. rewrite Href in Hon.
    destruct (scrollTop (state inst)) as [last|] eqn:Hlast; simpl in Hon.
    - destruct (JS.strict_eq (Dom.scrollTop current) last) eqn:E.
      + injection Hon as <-. eauto.
      + injection Hon as <-. simpl. eauto.
    - injection Hon as <-. simpl. eauto. }
  destruct Hrec as (Href1 & last & Hlast & Heq).
  destruct (componentDidUpdate_keeps_window _ _ _ Hupd)
    as (_ & _ & _ & Htop & _ & Href2).
  unfold onScroll. rewrite Href2, Href1, Htop, Hlast. simpl. by rewrite Heq.
Qed.

End Cycle.

(** * The properties of the specification *)

Section Claims.

Context {ReactNode : Type}.
Implicit Types (inst : @ListInstance ReactNode) (p : @ListProps ReactNode).

(** C1, as amended.  After an accepted scroll event on the virtualized path
    the phase is [MEASURE_START] and the window is rendered at offset 0,
    whatever corrected offset the previous cycle left in the state (it stays
    stored, but is not rendered); the measurement phase that follows the
    commit returns, reaches [MEASURE_DONE], and only then is the newly
    corrected offset the one that [render] passes on. *)
Theorem offset_rendered_only_when_done (host : Host) inst current s sh ch H h :
  listRef inst = Some current →
  accepted inst current = true →
  scrollable current s sh ch →
  pixel_props (props inst) H h →
  fast_path (props inst) = false →
  ∃ inst1 inst2,
    onScroll inst = JS.Ok inst1
    ∧ status (state inst1) = MEASURE_START
    ∧ startItemTop (state inst1) = startItemTop (state inst)
    ∧ fillerOffset (render inst1) = Some JS.zero
    ∧ update host (props inst1) inst1 = JS.Ok inst2
    ∧ status (state inst2) = MEASURE_DONE
    ∧ fillerOffset (render inst2) = Some (startItemTop (state inst2)).
Proof.
  intros Href Hacc Hgeo Hpx Hfast.
  destruct (onScroll_spec inst current s sh ch H h Href Hacc Hgeo Hpx)
    as (pq & _ & _ & _ & Hon).
  set (inst1 := with_state inst _) in Hon.
  assert (Hfast1 : fast_path (props inst1) = false) by exact Hfast.
  destruct (componentDidUpdate_measures (commit host inst1 (render inst1)) current
              (state inst) (JS.Finite s) pq (Qceiling (H / h)))
    as (inst2 & Hupd & Hdone & Hprops).
  { rewrite (commit_virtual _ _ Hfast1). reflexivity. }
  { rewrite (commit_virtual _ _ Hfast1). cbn [listRef]. subst inst1.
    cbn [with_state listRef]. by rewrite Href. }
  exists inst1, inst2. split; [exact Hon|]. split; [reflexivity|].
  split; [reflexivity|]. split.
  { rewrite (render_virtual _ Hfast1). reflexivity. }
  split; [exact Hupd|]. split; [exact Hdone|].
  assert (Hfast2 : fast_path (props inst2) = false).
  { rewrite Hprops. rewrite (commit_virtual _ _ Hfast1). exact Hfast. }
  rewrite (render_virtual _ Hfast2). cbn [fillerOffset]. rewrite Hdone.
  by destruct (decide (MEASURE_DONE = MEASURE_DONE)).
Qed.


(** C5.  After an accepted scroll event on a non-empty data source the
    handler returns, and the stored bounds satisfy
    [0 ≤ startIndex ≤ itemIndex ≤ endIndex ≤ length − 1], where [itemIndex]
    is the index the Location Estimator returns. *)
Theorem window_bounds_ordered inst current s sh ch H h :
  listRef inst = Some current →
  accepted inst current = true →
  scrollable current s sh ch →
  pixel_props (props inst) H h →
  dataSource (props inst) ≠ [] →
  ∃ inst',
    onScroll inst = JS.Ok inst'
    ∧ itemIndex (state inst') =
        index (getLocationItem (getScrollPercentage current)
                 (length_of (props inst)))
    ∧ JS.leq JS.zero (startIndex (state inst'))
    ∧ JS.leq (startIndex (state inst')) (itemIndex (state inst'))
    ∧ JS.leq (itemIndex (state inst')) (endIndex (state inst'))
    ∧ JS.leq (endIndex (state inst'))
             (JS.sub (length_of (props inst')) JS.one).
Proof.
  intros Href Hacc Hgeo Hpx Hne.
  destruct (onScroll_spec inst current s sh ch H h Href Hacc Hgeo Hpx)
    as (pq & Hptg & Hrange & _ & Hon).
  destruct (visibleCount_spec _ _ _ Hpx) as [_ Hvc].
  assert (HN : (1 ≤ Z.of_nat (length (dataSource (props inst))))%Z).
  { destruct (dataSource (props inst)); [contradiction | simpl; lia]. }
  destruct (window_order pq _ _ Hrange Hvc HN) as [Hlo Hhi].
  eexists. split; [exact Hon|]. split.
  { rewrite Hptg. unfold length_of, JS.of_nat. by rewrite getLocationItem_spec. }
  cbn [with_state state props selected startIndex itemIndex endIndex].
  unfold length_of, JS.of_nat, JS.zero, JS.one. rewrite of_Z_sub, !of_Z_leq. lia.
Qed.

(** C6.  After an accepted scroll event the window holds at least
    [⌈height / itemHeight⌉] items whenever neither bound was clamped; with a
    thousand items of nominal height 15 in a viewport of 300 pixels it
    holds, and [render] produces, at least 20 items at every scroll offset;
    and at scroll offset 0 the located index is 0. *)
Theorem window_covers_viewport inst current s sh ch H h :
  listRef inst = Some current →
  accepted inst current = true →
  scrollable current s sh ch →
  pixel_props (props inst) H h →
  ∃ inst',
    onScroll inst = JS.Ok inst'
    ∧ (let st := state inst' in
       let p := props inst' in
       JS.leq JS.zero (JS.sub (itemIndex st) (beforeCount p (scrollPtg st))) →
       JS.leq (JS.add (itemIndex st) (afterCount p (scrollPtg st)))
              (JS.sub (length_of p) JS.one) →
       JS.leq (visibleCount p) (windowSize st))
    ∧ (length (dataSource (props inst)) = 1000%nat → H == 300 → h == 15 →
       JS.leq (JS.of_Z 20) (windowSize (state inst'))
       ∧ 20 ≤ length (fillerChildren (render inst')))
    ∧ (s == 0 → itemIndex (state inst') = JS.zero).
Proof.
  intros Href Hacc Hgeo Hpx.
  destruct (onScroll_spec inst current s sh ch H h Href Hacc Hgeo Hpx)
    as (pq & Hptg & Hrange & Hmul & Hon).
  destruct (visibleCount_spec _ _ _ Hpx) as [Hvceq Hvc].
  set (N := Z.of_nat (length (dataSource (props inst)))) in *.
  set (vc := Qceiling (H / h)) in *.
  eexists. split; [exact Hon|].
  cbn [with_state state props selected startIndex itemIndex endIndex scrollPtg].
  unfold windowSize.
  cbn [with_state state props selected startIndex itemIndex endIndex scrollPtg].
  split; [|split].
  - rewrite (beforeCount_spec _ _ _ Hvceq), (afterCount_spec _ _ _ Hvceq), Hvceq.
    unfold length_of, JS.of_nat, JS.zero, JS.one. fold N.
    rewrite !of_Z_sub, !of_Z_add, !of_Z_leq.
    intros Hs He. by apply window_covers_unclamped.
  - intros Hlen HH Hh.
    assert (HN : N = 1000%Z) by (subst N; rewrite Hlen; reflexivity).
    assert (Hvc20 : vc = 20%Z).
    { subst vc. rewrite HH, Hh. reflexivity. }
    pose proof (window_covers pq N vc Hrange Hvc ltac:(lia) ltac:(lia)) as Hcov.
    destruct (window_order pq N vc Hrange Hvc ltac:(lia)) as [Hlo Hhi].
    cbv zeta in Hcov, Hlo, Hhi. rewrite Hvc20 in Hcov at 1. split.
    + unfold JS.one. rewrite of_Z_sub, of_Z_add, of_Z_leq. exact Hcov.
    + set (inst' := with_state inst _).
      assert (Hfast : fast_path (props inst') = false).
      { destruct Hpx as [HH' Hh' _ _]. unfold fast_path. cbn [props with_state inst'].
        rewrite HH', Hh'. unfold length_of. rewrite Hlen. simpl.
        apply Qle_bool_false. change (inject_Z (Z.of_nat 1000)) with 1000. lra. }
      rewrite (render_virtual _ Hfast). cbn [fillerChildren].
      rewrite renderChildren_length.
      cbn [inst' with_state state props selected startIndex endIndex].
      fold N. unfold JS.one. rewrite of_Z_add.
      apply Nat2Z.inj_le. rewrite slice_length by (fold N; lia).
      change (Z.of_nat 20) with 20%Z. lia.
  - intros Hs0.
    assert (Hpq0 : pq == 0).
    { apply (scroll_at_rest current s sh ch pq Hgeo Hmul); [lra | exact Hs0 | exact Hptg]. }
    unfold JS.zero. f_equal. unfold locatedZ.
    rewrite Hpq0. rewrite Qmult_0_l. change 0 with (inject_Z 0).
    rewrite Qfloor_Z. lia.
Qed.

(** C7.  When the viewport height is absent, or the data source's length
    times the nominal item height does not exceed it, [render] produces one
    child per item of the data source, in the original order and keyed by
    the item's position, attaches neither the scroll handler nor the
    container [ref], and does not read the state; the commit leaves
    [listRef] empty, so no scroll reaches the component, and
    [componentDidMount] ends on the empty [listRef] before it could start
    a measure cycle. *)
Theorem fast_path_renders_everything (host : Host) inst :
  height (props inst) = None
  ∨ JS.le (JS.mul (length_of (props inst)) (itemHeight (props inst)))
          (JS.to_number (height (props inst))) = true →
  let view := render inst in
  node <$> fillerChildren view = children (props inst) <$> dataSource (props inst)
  ∧ (∀ i item, dataSource (props inst) !! i = Some item →
       key <$> fillerChildren view !! i
       = Some (getItemKey (props inst) (JS.of_nat i)))
  ∧ onScrollAttached view = false
  ∧ refAttached view = false
  ∧ (∀ st, render (with_state inst st) = view)
  ∧ listRef (commit host inst view) = None
  ∧ (∀ top, scrollTo host top (commit host inst view)
            = JS.Ok (commit host inst view))
  ∧ componentDidMount (commit host inst view) = JS.TypeError.
Proof.
  intros Hcond view.
  assert (Hfast : fast_path (props inst) = true).
  { unfold fast_path. destruct Hcond as [-> | ->]; [reflexivity|].
    apply orb_true_r. }
  subst view. rewrite (render_fast _ Hfast). cbn [fillerChildren onScrollAttached refAttached].
  split; [apply renderChildren_nodes|]. split.
  { intros i item Hi. rewrite (renderChildren_lookup _ _ _ _ _ _ Hi).
    cbn [fmap option_fmap option_map key].
    unfold JS.zero, JS.of_nat. by rewrite of_Z_add, Z.add_0_l. }
  split; [reflexivity|]. split; [reflexivity|]. split.
  { intros st. by rewrite (render_fast (with_state inst st) Hfast). }
  split; [reflexivity|]. split; [intros top; reflexivity | reflexivity].
Qed.

(** C8.  A scroll event whose offset is the last processed [scrollTop] of
    the state makes [onScroll] return the instance as it is: no field of
    the state changes and no measure cycle starts. *)
Theorem onScroll_ignores_unchanged_offset inst current last :
  listRef inst = Some current →
  scrollTop (state inst) = Some last →
  JS.strict_eq (Dom.scrollTop current) last = true →
  onScroll inst = JS.Ok inst.
Proof.
  intros Href Hlast Heq. unfold onScroll. rewrite Href, Hlast. simpl.
  by rewrite Heq.
Qed.

(** C9.  With a viewport height of zero and a non-empty data source, an
    accepted scroll event returns with a window of exactly the located
    item, which [render] then produces as its one child, and the
    measurement phase after the commit returns too; the quotient
    [height / itemHeight] and the scroll percentage are finite numbers, the
    visible count being 0. *)
Theorem zero_height_viewport_window (host : Host) inst current s sh ch H h :
  listRef inst = Some current →
  accepted inst current = true →
  scrollable current s sh ch →
  pixel_props (props inst) H h →
  H == 0 →
  dataSource (props inst) ≠ [] →
  ∃ inst' inst'',
    onScroll inst = JS.Ok inst'
    ∧ JS.is_finite (getScrollPercentage current) = true
    ∧ JS.is_finite
        (JS.div (JS.to_number (height (props inst))) (itemHeight (props inst)))
      = true
    ∧ visibleCount (props inst) = JS.zero
    ∧ startIndex (state inst') = itemIndex (state inst')
    ∧ endIndex (state inst') = itemIndex (state inst')
    ∧ windowSize (state inst') = JS.one
    ∧ length (fillerChildren (render inst')) = 1%nat
    ∧ update host (props inst') inst' = JS.Ok inst''
    ∧ status (state inst'') = MEASURE_DONE.
Proof.
  intros Href Hacc Hgeo Hpx HH Hne.
  destruct (onScroll_spec inst current s sh ch H h Href Hacc Hgeo Hpx)
    as (pq & Hptg & Hrange & _ & Hon).
  destruct (visibleCount_spec _ _ _ Hpx) as [Hvceq _].
  assert (Hvc0 : Qceiling (H / h) = 0%Z).
  { assert (E : H / h == 0) by (unfold Qdiv; rewrite HH; ring).
    rewrite E. reflexivity. }
  rewrite Hvc0 in *.
  set (N := Z.of_nat (length (dataSource (props inst)))) in *.
  assert (HN : (1 ≤ N)%Z).
  { subst N. destruct (dataSource (props inst)); [contradiction | simpl; lia]. }
  pose proof (locatedZ_range pq N HN) as Hi.
  assert (Hb : beforeZ pq 0 = 0%Z).
  { unfold beforeZ. change (inject_Z 0) with 0. rewrite Qmult_0_r. reflexivity. }
  assert (Ha : afterZ pq 0 = 0%Z).
  { unfold afterZ. change (inject_Z 0) with 0. rewrite Qmult_0_r. reflexivity. }
  set (inst' := with_state inst _) in Hon.
  assert (Hstart : startIndex (state inst') = itemIndex (state inst')).
  { cbn. rewrite Hb. f_equal. lia. }
  assert (Hend : endIndex (state inst') = itemIndex (state inst')).
  { cbn. rewrite Ha. f_equal. lia. }
  assert (Hfast : fast_path (props inst') = false).
  { destruct Hpx as [HH' Hh' _ Hpos]. unfold fast_path. cbn [props with_state inst'].
    rewrite HH', Hh'. unfold length_of, JS.of_nat, JS.of_Z. simpl. fold N.
    apply Qle_bool_false. rewrite HH.
    assert (1 <= inject_Z N) by (change 1 with (inject_Z 1); by rewrite <- Zle_Qle).
    nra. }
  destruct (componentDidUpdate_measures (commit host inst' (render inst')) current
              (state inst) (JS.Finite s) pq 0)
    as (inst'' & Hupd & Hdone & _).
  { rewrite (commit_virtual _ _ Hfast). reflexivity. }
  { rewrite (commit_virtual _ _ Hfast). cbn [listRef]. subst inst'.
    cbn [with_state listRef]. by rewrite Href. }
  exists inst', inst''. split; [exact Hon|]. split; [by rewrite Hptg|]. split.
  { destruct Hpx as [-> -> _ Hpos]. simpl. by rewrite Qeq_bool_false by lra. }
  split; [exact Hvceq|]. split; [exact Hstart|]. split; [exact Hend|]. split.
  { unfold windowSize. rewrite Hstart, Hend.
    change (itemIndex (state inst')) with (JS.of_Z (locatedZ pq N)).
    unfold JS.one. rewrite of_Z_sub, of_Z_add. f_equal. lia. }
  split; [|split; [exact Hupd | exact Hdone]].
  rewrite (render_virtual _ Hfast). cbn [fillerChildren].
  rewrite renderChildren_length, Hstart, Hend.
  change (itemIndex (state inst')) with (JS.of_Z (locatedZ pq N)).
  unfold JS.one. rewrite of_Z_add. change (props inst') with (props inst).
  apply Nat2Z.inj. rewrite slice_length by (fold N; lia).
  change (Z.of_nat 1) with 1%Z. lia.
Qed.

(** C10.  At an index where the data source holds no item, or holds a falsy
    one, [getItemKey] returns the index itself, whether or not a key field
    is configured; so the key field is read only off an item that is
    present and truthy. *)
Theorem getItemKey_index_without_item p index :
  JS.truthy_value (JS.array_get (dataSource p) index) = false →
  getItemKey p index = JS.VNumber index.
Proof. intros Hitem. unfold getItemKey. by rewrite Hitem. Qed.

End Claims.

(** * The properties on the sample configurations *)

(** The sample instances are closed terms: a statement about them is
    settled by running the model. *)
Ltac by_running := vm_compute; reflexivity.

Ltac browser_geometry := constructor; [reflexivity.. | lra].

Ltac pixel_sized := constructor; [reflexivity.. | lra | lra].

(** C1, as stated, fails.  The list of a thousand rows has settled at
    scroll offset 7500 with the corrected offset 7485, which is what it
    renders; the next accepted scroll event, to 7600, starts a measure
    cycle whose window is rendered at offset 0, not at 7485. *)
Lemma measure_start_drops_previous_offset :
  ∃ inst',
    onScroll (scrolled (JS.of_Z 7600) halfway) = JS.Ok inst'
    ∧ status (state inst') = MEASURE_START
    ∧ JS.eqv (startItemTop (state halfway)) (JS.of_Z 7485)
    ∧ fillerOffset (render halfway) = Some (startItemTop (state halfway))
    ∧ fillerOffset (render inst') = Some JS.zero
    ∧ fillerOffset (render inst') ≠ Some (startItemTop (state halfway)).
Proof.
  exists (ok_or halfway (onScroll (scrolled (JS.of_Z 7600) halfway))).
  split; [by_running|]. split; [by_running|].
  split; [by_running|]. split; [by_running|].
  split; [by_running|].
  intros Heq. vm_compute in Heq. discriminate.
Qed.

Lemma offset_rendered_only_when_done_witness :
  ∃ inst1 inst2,
    onScroll (scrolled (JS.of_Z 7600) halfway) = JS.Ok inst1
    ∧ status (state inst1) = MEASURE_START
    ∧ startItemTop (state inst1)
      = startItemTop (state (scrolled (JS.of_Z 7600) halfway))
    ∧ fillerOffset (render inst1) = Some JS.zero
    ∧ update thousandHost (props inst1) inst1 = JS.Ok inst2
    ∧ status (state inst2) = MEASURE_DONE
    ∧ fillerOffset (render inst2) = Some (startItemTop (state inst2)).
Proof.
  apply (offset_rendered_only_when_done thousandHost
           (scrolled (JS.of_Z 7600) halfway) (elementAt 7600 15000 300)
           7600 15000 300 300 15).
  - by_running.
  - by_running.
  - browser_geometry.
  - pixel_sized.
  - by_running.
Defined.

(** C2 fails on the code.  The list of a thousand rows has settled with
    the window [[499, 520]]; when the data source shrinks to ten rows the
    update logs a line and returns with the same bounds, above the new last
    index 9. *)
Theorem shrunk_data_keeps_stale_window :
  ∃ inst',
    receiveProps thousandHost ten halfway = JS.Ok inst'
    ∧ length (dataSource (props inst')) = 10%nat
    ∧ startIndex (state inst') = JS.of_Z 499
    ∧ endIndex (state inst') = JS.of_Z 520
    ∧ JS.le (startIndex (state inst')) (JS.of_Z 9) = false
    ∧ console inst' = ["!!!!!!"].
Proof.
  exists (ok_or halfway (receiveProps thousandHost ten halfway)).
  split; [by_running|]. split; [by_running|].
  split; [by_running|]. split; [by_running|].
  split; by_running.
Qed.

(** With a hundred rows left the list stays virtualized, and the stale
    window [[499, 520]] selects no row at all: nothing is rendered until
    the next accepted scroll event. *)
Lemma shrunk_data_renders_nothing :
  ∃ inst',
    receiveProps thousandHost hundred halfway = JS.Ok inst'
    ∧ onScrollAttached (render inst') = true
    ∧ startIndex (state inst') = JS.of_Z 499
    ∧ fillerChildren (render inst') = [].
Proof.
  exists (ok_or halfway (receiveProps thousandHost hundred halfway)).
  split; [by_running|]. split; [by_running|].
  split; by_running.
Qed.

(** C3 fails on the code.  Without a viewport height [render] takes the
    fast path, which leaves [listRef] empty, and [componentDidMount]
    dereferences it: mounting throws, whatever the other props are; so it
    does with ten rows that fit the viewport. *)
Theorem mount_on_fast_path_throws :
  (∀ (ReactNode : Type) (host : Host) (renderFunc : JS.value → ReactNode)
     data ih k,
     mount host (withDefaultProps renderFunc data None ih k) = JS.TypeError)
  ∧ mount thousandHost bare = JS.TypeError
  ∧ mount thousandHost ten = JS.TypeError.
Proof.
  split; [|split].
  - intros. by apply mount_fast_path_throws.
  - by apply mount_fast_path_throws.
  - apply mount_fast_path_throws. by_running.
Qed.



Lemma window_bounds_ordered_witness :
  ∃ inst',
    onScroll (scrolled (JS.of_Z 100) (committed thousandHost thousand))
      = JS.Ok inst'
    ∧ itemIndex (state inst') =
        index (getLocationItem (getScrollPercentage (elementAt 100 15000 300))
                 (length_of thousand))
    ∧ JS.leq JS.zero (startIndex (state inst'))
    ∧ JS.leq (startIndex (state inst')) (itemIndex (state inst'))
    ∧ JS.leq (itemIndex (state inst')) (endIndex (state inst'))
    ∧ JS.leq (endIndex (state inst'))
             (JS.sub (length_of (props inst')) JS.one).
Proof.
  apply (window_bounds_ordered
           (scrolled (JS.of_Z 100) (committed thousandHost thousand))
           (elementAt 100 15000 300) 100 15000 300 300 15).
  - by_running.
  - by_running.
  - browser_geometry.
  - pixel_sized.
  - discriminate.
Defined.

Lemma window_covers_viewport_witness :
  ∃ inst',
    onScroll (scrolled (JS.of_Z 100) (committed thousandHost thousand))
      = JS.Ok inst'
    ∧ JS.leq (JS.of_Z 20) (windowSize (state inst'))
    ∧ 20 ≤ length (fillerChildren (render inst')).
Proof.
  destruct (window_covers_viewport
              (scrolled (JS.of_Z 100) (committed thousandHost thousand))
              (elementAt 100 15000 300) 100 15000 300 300 15)
    as (inst' & Hon & _ & Hscenario & _).
  - by_running.
  - by_running.
  - browser_geometry.
  - pixel_sized.
  - exists inst'. split; [exact Hon|].
    apply Hscenario; [by_running | reflexivity | reflexivity].
Defined.

Lemma fast_path_renders_everything_witness :
  node <$> fillerChildren (render (construct ten)) = label <$> rows 10
  ∧ onScrollAttached (render (construct ten)) = false
  ∧ refAttached (render (construct ten)) = false.
Proof.
  destruct (fast_path_renders_everything thousandHost (construct ten))
    as (Hnodes & _ & Hscroll & Href & _).
  - right. by_running.
  - split; [exact Hnodes|]. split; [exact Hscroll | exact Href].
Defined.

Lemma onScroll_ignores_unchanged_offset_witness :
  onScroll halfway = JS.Ok halfway.
Proof.
  apply (onScroll_ignores_unchanged_offset halfway (elementAt 7500 15000 300)
           (JS.of_Z 7500)); by_running.
Defined.

Lemma zero_height_viewport_window_witness :
  ∃ inst' inst'',
    onScroll (scrolled (JS.of_Z 10) (committed flatHost flat)) = JS.Ok inst'
    ∧ JS.is_finite (getScrollPercentage (elementAt 10 45 0)) = true
    ∧ JS.is_finite
        (JS.div (JS.to_number (height flat)) (itemHeight flat)) = true
    ∧ visibleCount flat = JS.zero
    ∧ startIndex (state inst') = itemIndex (state inst')
    ∧ endIndex (state inst') = itemIndex (state inst')
    ∧ windowSize (state inst') = JS.one
    ∧ length (fillerChildren (render inst')) = 1%nat
    ∧ update flatHost (props inst') inst' = JS.Ok inst''
    ∧ status (state inst'') = MEASURE_DONE.
Proof.
  apply (zero_height_viewport_window flatHost
           (scrolled (JS.of_Z 10) (committed flatHost flat))
           (elementAt 10 45 0) 10 45 0 0 15).
  - by_running.
  - by_running.
  - browser_geometry.
  - pixel_sized.
  - reflexivity.
  - discriminate.
Defined.

(** Mounting the three rows under the zero-height viewport runs the whole
    cycle and settles on the first row. *)
Lemma zero_height_mount_settles :
  ∃ inst,
    mount flatHost flat = JS.Ok inst
    ∧ status (state inst) = MEASURE_DONE
    ∧ startIndex (state inst) = JS.zero
    ∧ endIndex (state inst) = JS.zero
    ∧ length (fillerChildren (render inst)) = 1%nat.
Proof.
  exists (ok_or (construct flat) (mount flatHost flat)).
  split; [by_running|]. split; [by_running|].
  split; [by_running|]. split; by_running.
Qed.

Lemma getItemKey_index_without_item_witness :
  getItemKey sparse JS.zero = JS.VNumber JS.zero
  ∧ getItemKey sparse (JS.of_Z 7) = JS.VNumber (JS.of_Z 7).
Proof.
  split; apply getItemKey_index_without_item; reflexivity.
Defined.

(** * Further properties of the methods *)

(** ** Numbers that cannot make a loop run forever *)

Lemma max_zero_not_neg_infinity (x : JS.number) :
  JS.max JS.zero x ≠ JS.NegInfinity.
Proof.
  destruct x as [| | |q]; simpl; try discriminate.
  destruct (Qle_bool _ _); discriminate.
Qed.

Lemma min_finite_not_infinity (n : Q) (y : JS.number) :
  JS.min (JS.Finite n) y ≠ JS.Infinity.
Proof.
  destruct y as [| | |q]; simpl; try discriminate.
  destruct (Qle_bool _ _); discriminate.
Qed.

Lemma clamped_index_finite_or_nan (n : Q) (y : JS.number) :
  let x := JS.max JS.zero (JS.min (JS.Finite n) y) in
  x = JS.NaN ∨ ∃ q, x = JS.Finite q.
Proof.
  unfold JS.zero, JS.of_Z.
  destruct y as [| | |q]; simpl; repeat (destruct (Qle_bool _ _); simpl); eauto.
Qed.

Lemma for_up_returns {A} (from to : JS.number) (body : JS.number → A → A) x :
  from ≠ JS.NegInfinity → to ≠ JS.Infinity →
  ∃ r, JS.for_up from to body x = JS.Ok r.
Proof.
  intros Hfrom Hto.
  destruct from as [| | |a], to as [| | |b]; simpl; eauto; contradiction.
Qed.

Lemma for_down_returns {A} (from to : JS.number) (body : JS.number → A → A) x :
  from = JS.NaN ∨ (∃ q, from = JS.Finite q) → to ≠ JS.NegInfinity →
  ∃ r, JS.for_down from to body x = JS.Ok r.
Proof.
  intros [-> | [q ->]] Hto; destruct to as [| | |b]; simpl; eauto; contradiction.
Qed.

Lemma or_zero_finite (h : Q) :
  ∃ h', JS.or_zero (Some (JS.Finite h)) = JS.Finite h' ∧ h' == h.
Proof.
  unfold JS.or_zero, JS.truthy. destruct (Qeq_bool h 0) eqn:E; simpl.
  - apply Qeq_bool_iff in E. exists 0. split; [reflexivity|]. by symmetry.
  - exists h. split; reflexivity.
Qed.

Section MoreFacts.

Context {ReactNode : Type}.
Implicit Types (inst : @ListInstance ReactNode) (p : @ListProps ReactNode).

(** A round of the measuring loop writes the slot of its own key only. *)
Lemma recorded_others inst n a heights k :
  (∀ z, (a ≤ z < a + Z.of_nat n)%Z → k ≠ eleKeyOf (props inst) (JS.of_Z z)) →
  JS.iterate n (inject_Z a) 1 (recordHeight inst) heights !! k = heights !! k.
Proof.
  revert a heights. induction n as [|n IH]; intros a heights Hk; [reflexivity|].
  rewrite iterate_succ. change 1 with (inject_Z 1). rewrite <- inject_Z_plus.
  rewrite IH by (intros z Hz; apply Hk; lia).
  unfold recordHeight. rewrite lookup_insert_ne; [reflexivity|].
  intros Heq. apply (Hk a); [lia|]. by symmetry.
Qed.

(** The backward walk subtracts what the cache holds for each index it
    passes. *)
Lemma walk_back_sum p heights (f : Z → Q) n hi t :
  (∀ z, (hi - Z.of_nat n < z ≤ hi)%Z →
        ∃ q', JS.or_zero (heights !! eleKeyOf p (JS.of_Z z)) = JS.Finite q'
              ∧ q' == f z) →
  ∃ q, JS.iterate n (inject_Z hi) (-1) (stepBack p heights) (JS.Finite t)
         = JS.Finite q
       ∧ q == t - sum_below f hi n.
Proof.
  revert hi t. induction n as [|n IH]; intros hi t Hread.
  - exists t. split; [reflexivity|]. simpl. ring.
  - rewrite iterate_succ. unfold stepBack at 2.
    change (JS.Finite (inject_Z hi)) with (JS.of_Z hi).
    destruct (Hread hi) as (q' & -> & Hq'); [lia|]. simpl JS.sub.
    change (-1) with (inject_Z (-1)). rewrite <- inject_Z_plus.
    destruct (IH (hi + -1)%Z (t + - q')) as (q & Hq & Heq).
    { intros z Hz. apply Hread. lia. }
    exists q. split; [exact Hq|]. rewrite Heq. simpl sum_below.
    replace (hi + -1)%Z with (hi - 1)%Z by lia. rewrite Hq'. ring.
Qed.

(** The measurement phase cannot run forever on bounds of the shape that
    [Math.max(0, _)] and [Math.min(length - 1, _)] produce. *)
Lemma componentDidUpdate_no_hang inst prevProps :
  startIndex (state inst) ≠ JS.NegInfinity →
  endIndex (state inst) ≠ JS.Infinity →
  (itemIndex (state inst) = JS.NaN ∨ ∃ q, itemIndex (state inst) = JS.Finite q) →
  componentDidUpdate inst prevProps ≠ JS.Hang.
Proof.
  intros Hstart Hend Hidx. unfold componentDidUpdate.
  destruct (decide (status (state inst) = MEASURE_START)); simpl;
    [|case_decide; discriminate].
  destruct (for_up_returns (startIndex (state inst)) (endIndex (state inst))
              (recordHeight inst) (itemElementHeights inst) Hstart Hend)
    as [heights ->].
  simpl. destruct (listRef inst) as [current|]; [|discriminate].
  assert (Hfrom : JS.sub (itemIndex (state inst)) JS.one = JS.NaN
                  ∨ ∃ q, JS.sub (itemIndex (state inst)) JS.one = JS.Finite q).
  { destruct Hidx as [-> | [q ->]]; simpl; eauto. }
  match goal with
  | |- context [JS.for_down ?from ?to ?body ?x] =>
      destruct (for_down_returns from to body x Hfrom Hstart) as [top ->]
  end.
  simpl. case_decide; discriminate.
Qed.

(** What [flush] does with the state an accepted scroll event has stored:
    the first update measures and reaches [MEASURE_DONE], the second one
    changes no field of the state. *)
Lemma flush_selected (host : Host) inst current st0 top pq vc :
  let N := Z.of_nat (length (dataSource (props inst))) in
  fast_path (props inst) = false →
  state inst = selected st0 top pq N vc →
  listRef inst = Some current →
  ∃ inst2 inst3,
    update host (props inst) inst = JS.Ok inst2
    ∧ flush host inst = JS.Ok inst3
    ∧ status (state inst2) = MEASURE_DONE
    ∧ state inst3 = state inst2
    ∧ props inst3 = props inst
    ∧ listRef inst3 = Some current
    ∧ startIndex (state inst3) = startIndex (state inst)
    ∧ endIndex (state inst3) = endIndex (state inst)
    ∧ itemIndex (state inst3) = itemIndex (state inst)
    ∧ scrollTop (state inst3) = scrollTop (state inst).
Proof.
  intros N Hfast Hst Href.
  destruct (componentDidUpdate_measures (commit host inst (render inst)) current
              st0 top pq vc)
    as (inst2 & Hupd & Hdone & Hprops).
  { rewrite (commit_virtual _ _ Hfast). exact Hst. }
  { rewrite (commit_virtual _ _ Hfast). cbn [listRef]. by rewrite Href. }
  change (props (commit host inst (render inst))) with (props inst) in Hupd, Hprops.
  destruct (componentDidUpdate_keeps_window _ _ _ Hupd)
    as (Hs2 & He2 & Hi2 & Ht2 & _ & Href2).
  assert (Hfast2 : fast_path (props inst2) = false) by (by rewrite Hprops).
  destruct (componentDidUpdate_idle (commit host inst2 (render inst2)) (props inst2))
    as (inst3 & Hupd3 & Hst3 & Hprops3 & Href3).
  { cbn [commit state]. rewrite Hdone. discriminate. }
  exists inst2, inst3. split; [exact Hupd|]. split.
  { unfold flush. fold (update host (props inst) inst) in Hupd.
    rewrite Hupd. exact Hupd3. }
  split; [exact Hdone|]. split; [exact Hst3|]. split.
  { rewrite Hprops3. exact Hprops. }
  split.
  { rewrite Href3, (commit_virtual _ _ Hfast2). cbn [listRef]. rewrite Href2.
    rewrite (commit_virtual _ _ Hfast). cbn [listRef]. by rewrite Href. }
  change (state (commit host inst2 (render inst2))) with (state inst2) in Hst3.
  change (state (commit host inst (render inst))) with (state inst) in *.
  rewrite Hst3. repeat split; assumption.
Qed.

End MoreFacts.

Lemma relative_index_beyond (len : nat) (z : Z) :
  (Z.of_nat len ≤ z)%Z → JS.relative_index len (JS.of_Z z) = len.
Proof.
  intros Hz. unfold JS.relative_index, JS.of_Z, JS.truncate. simpl.
  rewrite Z.quot_1_r. destruct (Z.ltb_spec z 0); lia.
Qed.

Section Extras.

Context {ReactNode : Type}.
Implicit Types (inst : @ListInstance ReactNode) (p : @ListProps ReactNode).

(** X1.  Whatever the phase, [componentDidUpdate] leaves the props, the
    container, the mounted elements, the processed offset, the located item
    and the window bounds as they were; outside [MEASURE_START] it leaves
    the whole state and the height cache as they were. *)
Theorem componentDidUpdate_frame inst prevProps inst' :
  componentDidUpdate inst prevProps = JS.Ok inst' →
  props inst' = props inst
  ∧ listRef inst' = listRef inst
  ∧ itemElements inst' = itemElements inst
  ∧ scrollTop (state inst') = scrollTop (state inst)
  ∧ scrollPtg (state inst') = scrollPtg (state inst)
  ∧ itemIndex (state inst') = itemIndex (state inst)
  ∧ itemOffsetPtg (state inst') = itemOffsetPtg (state inst)
  ∧ startIndex (state inst') = startIndex (state inst)
  ∧ endIndex (state inst') = endIndex (state inst)
  ∧ (status (state inst) ≠ MEASURE_START →
     state inst' = state inst
     ∧ itemElementHeights inst' = itemElementHeights inst).
Proof.
  unfold componentDidUpdate.
  destruct (decide (status (state inst) = MEASURE_START)) as [Hs|Hs]; simpl.
  - destruct (JS.for_up _ _ _ _) as [heights| |]; simpl; try discriminate.
    destruct (listRef inst) as [current|] eqn:Href; try discriminate.
    destruct (JS.for_down _ _ _ _) as [top| |]; simpl; try discriminate.
    case_decide; intros [= <-]; simpl; repeat split; auto; contradiction.
  - case_decide; intros [= <-]; simpl; repeat split; auto.
Qed.

(** X2.  [onScroll] touches nothing but the state, and in the state it
    keeps the corrected offset of the previous cycle: props, container,
    mounted elements, height cache and console come back as they went in. *)
Theorem onScroll_frame inst inst' :
  onScroll inst = JS.Ok inst' →
  props inst' = props inst
  ∧ listRef inst' = listRef inst
  ∧ itemElements inst' = itemElements inst
  ∧ itemElementHeights inst' = itemElementHeights inst
  ∧ console inst' = console inst
  ∧ startItemTop (state inst') = startItemTop (state inst).
Proof.
  unfold onScroll. destruct (listRef inst) as [current|] eqn:Href; [|discriminate].
  destruct (from_option _ _ _); intros [= <-]; simpl; rewrite ?Href; repeat split.
Qed.

(** X4.  Whatever the state holds, [render] produces the rendering of one
    contiguous run of the data source, in the order of the data source; so
    it never produces more children than there are items. *)
Theorem render_contiguous_run inst :
  ∃ k n,
    node <$> fillerChildren (render inst)
    = children (props inst) <$> take n (drop k (dataSource (props inst)))
    ∧ length (fillerChildren (render inst)) ≤ length (dataSource (props inst)).
Proof.
  destruct (fast_path (props inst)) eqn:Hfast.
  - exists 0%nat, (length (dataSource (props inst))).
    rewrite (render_fast _ Hfast). cbn [fillerChildren].
    rewrite renderChildren_nodes, renderChildren_length.
    rewrite drop_0, take_ge by lia. split; [reflexivity | lia].
  - rewrite (render_virtual _ Hfast). cbn [fillerChildren].
    rewrite renderChildren_nodes, renderChildren_length. unfold JS.slice.
    eexists _, _. split; [reflexivity|].
    rewrite length_take, length_drop. lia.
Qed.

(** X5.  On the virtualized path, with integer bounds inside the data
    source, [render] produces exactly the items from [startIndex] to
    [endIndex]: one child per index, in order, each the rendering of the
    item at that index under the key [getItemKey] gives the index. *)
Theorem render_window_items inst (a e : Z) :
  fast_path (props inst) = false →
  startIndex (state inst) = JS.of_Z a →
  endIndex (state inst) = JS.of_Z e →
  (0 ≤ a)%Z → (a ≤ e + 1)%Z →
  (e + 1 ≤ Z.of_nat (length (dataSource (props inst))))%Z →
  Z.of_nat (length (fillerChildren (render inst))) = (e - a + 1)%Z
  ∧ ∀ z item,
      (a ≤ z ≤ e)%Z →
      dataSource (props inst) !! Z.to_nat z = Some item →
      fillerChildren (render inst) !! Z.to_nat (z - a)
      = Some {| node := children (props inst) item;
                key := getItemKey (props inst) (JS.of_Z z) |}.
Proof.
  intros Hfast Hstart Hend Ha Hae He.
  rewrite (render_virtual _ Hfast). cbn [fillerChildren].
  rewrite Hstart, Hend. unfold JS.one. rewrite of_Z_add. split.
  - rewrite renderChildren_length. by apply slice_length.
  - intros z item Hz Hitem.
    rewrite <- (slice_lookup _ a e z) in Hitem by lia.
    rewrite (renderChildren_lookup _ _ _ _ _ _ Hitem).
    unfold JS.of_nat. rewrite of_Z_add.
    replace (a + Z.of_nat (Z.to_nat (z - a)))%Z with z by lia. reflexivity.
Qed.

(** X6.  On the virtualized path, a [startIndex] at or beyond the end of
    the data source makes [render] produce no child at all, whatever
    [endIndex] is: stale bounds do not make it fail, they empty the
    window. *)
Theorem render_stale_window_empty inst (a : Z) :
  fast_path (props inst) = false →
  startIndex (state inst) = JS.of_Z a →
  (Z.of_nat (length (dataSource (props inst))) ≤ a)%Z →
  fillerChildren (render inst) = [].
Proof.
  intros Hfast Hstart Ha. rewrite (render_virtual _ Hfast). cbn [fillerChildren].
  rewrite Hstart. unfold JS.slice. rewrite relative_index_beyond by exact Ha.
  rewrite drop_all, take_nil. reflexivity.
Qed.

(** X7.  When the measurement phase returns, the height cache holds, for
    every index of the window, the height of the element mounted under that
    index's key, and every entry under a key of no index of the window is
    the entry that was there before: nothing is evicted. *)
Theorem measurement_fills_cache inst prevProps inst' (a e : Z) :
  status (state inst) = MEASURE_START →
  startIndex (state inst) = JS.of_Z a →
  endIndex (state inst) = JS.of_Z e →
  componentDidUpdate inst prevProps = JS.Ok inst' →
  (∀ z, (a ≤ z ≤ e)%Z →
        itemElementHeights inst' !! eleKeyOf (props inst) (JS.of_Z z)
        = Some (getNodeHeight
                  (itemElements inst !! eleKeyOf (props inst) (JS.of_Z z))))
  ∧ (∀ k, (∀ z, (a ≤ z ≤ e)%Z → k ≠ eleKeyOf (props inst) (JS.of_Z z)) →
          itemElementHeights inst' !! k = itemElementHeights inst !! k).
Proof.
  intros Hs Hstart Hend. unfold componentDidUpdate.
  destruct (decide (status (state inst) = MEASURE_START)); [|contradiction].
  rewrite Hstart, Hend, for_up_of_Z. cbn [mbind outcome_bind JS.bind].
  destruct (listRef inst) as [current|]; [|discriminate].
  destruct (JS.for_down _ _ _ _) as [top| |];
    cbn [mbind outcome_bind JS.bind]; try discriminate.
  assert (Hcache :
    ∀ heights' : gmap string JS.number,
      heights' = JS.iterate (Z.to_nat (e - a + 1)) (inject_Z a) 1
                   (recordHeight inst) (itemElementHeights inst) →
      (∀ z, (a ≤ z ≤ e)%Z →
            heights' !! eleKeyOf (props inst) (JS.of_Z z)
            = Some (getNodeHeight
                      (itemElements inst !! eleKeyOf (props inst) (JS.of_Z z))))
      ∧ (∀ k, (∀ z, (a ≤ z ≤ e)%Z → k ≠ eleKeyOf (props inst) (JS.of_Z z)) →
              heights' !! k = itemElementHeights inst !! k)).
  { intros heights' ->. split.
    - intros z Hz. apply recorded_all. lia.
    - intros k Hk. apply recorded_others. intros z Hz. apply Hk. lia. }
  case_decide; intros [= <-]; cbn [itemElementHeights]; by apply Hcache.
Qed.

(** X8.  The corrected offset for rows of any heights.  With the located
    item inside an integer window and finite measurements, the measurement
    phase returns and stores
    [scrollTop + scrollPtg × clientHeight − itemOffsetPtg × height(itemIndex)]
    minus the measured heights of the rows from [startIndex] up to, not
    including, [itemIndex]. *)
Theorem corrected_offset_formula inst current prevProps
    (pq off s ch : Q) (i a e : Z) (hq : Z → Q) :
  status (state inst) = MEASURE_START →
  scrollPtg (state inst) = JS.Finite pq →
  itemOffsetPtg (state inst) = JS.Finite off →
  itemIndex (state inst) = JS.of_Z i →
  startIndex (state inst) = JS.of_Z a →
  endIndex (state inst) = JS.of_Z e →
  (a ≤ i ≤ e)%Z →
  listRef inst = Some current →
  Dom.scrollTop current = JS.Finite s →
  Dom.clientHeight current = JS.Finite ch →
  (∀ z, (a ≤ z ≤ e)%Z →
        getNodeHeight (itemElements inst !! eleKeyOf (props inst) (JS.of_Z z))
        = JS.Finite (hq z)) →
  ∃ inst' q,
    componentDidUpdate inst prevProps = JS.Ok inst'
    ∧ status (state inst') = MEASURE_DONE
    ∧ startItemTop (state inst') = JS.Finite q
    ∧ q == s + pq * ch - off * hq i - sum_below hq (i - 1) (Z.to_nat (i - a)).
Proof.
  intros Hs Hptg Hoff Hidx Hstart Hend Hwin Href Htop Hch Hmeasured.
  unfold componentDidUpdate.
  destruct (decide (status (state inst) = MEASURE_START)); [|contradiction].
  rewrite Hptg, Hoff, Hidx, Hstart, Hend, Href, for_up_of_Z.
  cbn [mbind outcome_bind JS.bind].
  set (heights := JS.iterate _ _ _ _ _).
  assert (Hread : ∀ z, (a ≤ z ≤ e)%Z →
            ∃ q', JS.or_zero (heights !! eleKeyOf (props inst) (JS.of_Z z))
                  = JS.Finite q' ∧ q' == hq z).
  { intros z Hz. unfold heights.
    rewrite (recorded_all inst _ a _ z) by lia.
    rewrite (Hmeasured z Hz). apply or_zero_finite. }
  destruct (Hread i) as (hi' & -> & Hhi'); [lia|]. rewrite Htop, Hch.
  unfold JS.one. rewrite of_Z_sub, for_down_of_Z.
  cbn [JS.mul JS.add JS.sub JS.neg].
  destruct (walk_back_sum (props inst) heights hq (Z.to_nat (i - 1 - a + 1)) (i - 1)
              (s + pq * ch + - (off * hi')))
    as (q & Hq & Heq).
  { intros z Hz. apply Hread. lia. }
  rewrite Hq. cbn [mbind outcome_bind JS.bind].
  replace (i - 1 - a + 1)%Z with (i - a)%Z in Heq by lia.
  assert (Hfinal : q == s + pq * ch - off * hq i
                        - sum_below hq (i - 1) (Z.to_nat (i - a))).
  { rewrite Heq, Hhi'. ring. }
  case_decide; eexists _, q; (split; [reflexivity|]); cbn [state status startItemTop];
    repeat split; exact Hfinal.
Qed.

(** X9.  With no container attached, [onScroll] and [componentDidMount]
    throw; [componentDidUpdate] throws in [MEASURE_START], once its first
    loop is through, and in any other phase returns without touching the
    state. *)
Theorem detached_container inst prevProps :
  listRef inst = None →
  onScroll inst = JS.TypeError
  ∧ componentDidMount inst = JS.TypeError
  ∧ (status (state inst) ≠ MEASURE_START →
     ∃ inst', componentDidUpdate inst prevProps = JS.Ok inst'
              ∧ state inst' = state inst)
  ∧ (status (state inst) = MEASURE_START →
     startIndex (state inst) ≠ JS.NegInfinity →
     endIndex (state inst) ≠ JS.Infinity →
     componentDidUpdate inst prevProps = JS.TypeError).
Proof.
  intros Href. split; [by apply onScroll_detached|]. split.
  { unfold componentDidMount. by rewrite Href. }
  split.
  - intros Hs. destruct (componentDidUpdate_idle inst prevProps Hs)
      as (inst' & Hupd & Hst & _). eauto.
  - intros Hs Hstart Hend. unfold componentDidUpdate.
    destruct (decide (status (state inst) = MEASURE_START)); [|contradiction].
    destruct (for_up_returns (startIndex (state inst)) (endIndex (state inst))
                (recordHeight inst) (itemElementHeights inst) Hstart Hend)
      as [heights ->].
    cbn [mbind outcome_bind JS.bind]. by rewrite Href.
Qed.

(** X10.  After an accepted scroll event the measurement phase cannot run
    forever, whatever the props, the geometry of the container and the
    measured heights are: the bounds [onScroll] stores come out of
    [Math.max(0, _)] and [Math.min(length - 1, _)], on which both loops
    end. *)
Theorem measurement_terminates_after_scroll (host : Host) inst current inst1
    prevProps :
  listRef inst = Some current →
  accepted inst current = true →
  onScroll inst = JS.Ok inst1 →
  componentDidUpdate inst1 prevProps ≠ JS.Hang
  ∧ update host prevProps inst1 ≠ JS.Hang.
Proof.
  intros Href Hacc Hon. rewrite (onScroll_accepted _ _ Href Hacc) in Hon.
  injection Hon as <-.
  assert (Hshape :
    ∀ inst2 : @ListInstance ReactNode,
      state inst2 = state (with_state inst
        (let ptg := getScrollPercentage current in
         let located := getLocationItem ptg (length_of (props inst)) in
         {| status := MEASURE_START;
            scrollTop := Some (Dom.scrollTop current);
            scrollPtg := ptg;
            itemIndex := index located;
            itemOffsetPtg := offsetPtg located;
            startIndex :=
              JS.max JS.zero
                (JS.sub (index located) (beforeCount (props inst) ptg));
            endIndex :=
              JS.min (JS.sub (length_of (props inst)) JS.one)
                     (JS.add (index located) (afterCount (props inst) ptg));
            startItemTop := startItemTop (state inst) |})) →
      componentDidUpdate inst2 prevProps ≠ JS.Hang).
  { intros inst2 Hst. apply componentDidUpdate_no_hang; rewrite Hst;
      cbn [with_state state startIndex endIndex itemIndex].
    - apply max_zero_not_neg_infinity.
    - unfold length_of, JS.of_nat, JS.one. rewrite of_Z_sub.
      apply min_finite_not_infinity.
    - unfold getLocationItem. cbn [index]. unfold length_of, JS.of_nat, JS.one.
      rewrite of_Z_sub. apply clamped_index_finite_or_nan. }
  split; apply Hshape; reflexivity.
Qed.

(** X11.  On the virtualized path of pixel-sized props, with a container of
    finite geometry, mounting returns: the whole cycle has run, the phase is
    [MEASURE_DONE], the processed offset is 0 and the located item and the
    start of the window are the first row. *)
Theorem mount_virtualized_completes (host : Host) p H h sh ch :
  pixel_props p H h →
  fast_path p = false →
  Dom.scrollHeight (container host) = JS.Finite sh →
  Dom.clientHeight (container host) = JS.Finite ch →
  ch <= sh →
  ∃ inst,
    mount host p = JS.Ok inst
    ∧ status (state inst) = MEASURE_DONE
    ∧ props inst = p
    ∧ listRef inst = Some (Dom.set_scrollTop (container host) JS.zero)
    ∧ scrollTop (state inst) = Some JS.zero
    ∧ itemIndex (state inst) = JS.zero
    ∧ startIndex (state inst) = JS.zero.
Proof.
  intros Hpx Hfast Hsh Hch Hle. unfold mount.
  assert (Hfast0 : fast_path (props (construct p)) = false) by exact Hfast.
  rewrite (commit_virtual host (construct p) Hfast0).
  unfold componentDidMount. cbn [listRef construct default].
  set (current := Dom.set_scrollTop (container host) JS.zero).
  set (inst0 := {| props := _; state := _; listRef := Some current;
                   itemElements := _; itemElementHeights := _; console := _ |}).
  assert (Hgeo : scrollable current 0 sh ch).
  { constructor; [reflexivity | exact Hsh | exact Hch | lra]. }
  destruct (onScroll_spec inst0 current 0 sh ch H h eq_refl eq_refl Hgeo Hpx)
    as (pq & Hptg & Hrange & Hmul & Hon).
  rewrite Hon. cbn [mbind outcome_bind JS.bind].
  set (inst1 := with_state inst0 _).
  destruct (flush_selected host inst1 current (state inst0) (JS.Finite 0) pq
              (Qceiling (H / h)) Hfast eq_refl eq_refl)
    as (inst2 & inst3 & _ & Hflush & Hdone & Hst3 & Hprops & Href3
        & Hs3 & _ & Hi3 & Ht3).
  assert (Hpq0 : pq == 0).
  { apply (scroll_at_rest current 0 sh ch pq Hgeo Hmul); [lra | reflexivity | exact Hptg]. }
  assert (Hloc : locatedZ pq (Z.of_nat (length (dataSource p))) = 0%Z).
  { unfold locatedZ. rewrite Hpq0, Qmult_0_l. change 0 with (inject_Z 0).
    rewrite Qfloor_Z. lia. }
  destruct (visibleCount_spec _ _ _ Hpx) as [_ Hvc].
  pose proof (beforeZ_nonneg pq (Qceiling (H / h)) Hrange Hvc) as Hb.
  exists inst3. split; [exact Hflush|]. split; [by rewrite Hst3|].
  split; [exact Hprops|]. split; [exact Href3|].
  split; [rewrite Ht3; reflexivity|]. split.
  - rewrite Hi3. cbn. by rewrite Hloc.
  - rewrite Hs3. cbn. rewrite Hloc. unfold JS.zero. f_equal. lia.
Qed.

(** X12.  Without a key field, different indices get different element
    keys: no two rows share a slot of the height cache. *)
Theorem index_keys_distinct p (a b : Z) :
  JS.truthy_string (itemKey p) = false →
  a ≠ b →
  eleKeyOf p (JS.of_Z a) ≠ eleKeyOf p (JS.of_Z b).
Proof.
  intros Hk Hne Heq. apply Hne. unfold eleKeyOf in Heq.
  rewrite !(getItemKey_without_itemKey _ _ Hk) in Heq.
  cbn [JS.to_property_key] in Heq. rewrite !to_string_of_Z in Heq.
  by apply (inj pretty).
Qed.

(** X13.  With a key field configured, the key of a truthy item is read off
    the item alone: the same item gets the same key at any index of any
    data source. *)
Theorem keyed_item_key_follows_item p p' (i j : JS.number) name item :
  itemKey p = Some name →
  itemKey p' = Some name →
  name ≠ "" →
  JS.array_get (dataSource p) i = item →
  JS.array_get (dataSource p') j = item →
  JS.truthy_value item = true →
  getItemKey p i = JS.get_property item name
  ∧ getItemKey p' j = getItemKey p i.
Proof.
  intros Hk Hk' Hne Hi Hj Hitem.
  rewrite (getItemKey_reads_field p i name Hk Hne) by (by rewrite Hi).
  rewrite (getItemKey_reads_field p' j name Hk' Hne) by (by rewrite Hj).
  by rewrite Hi, Hj.
Qed.

(** X14.  A scroll to a new offset, on a virtualized list with pixel-sized
    props and browser geometry, runs the whole cycle: the handler accepts
    it, both updates return, and the instance ends in [MEASURE_DONE] with
    that offset as the processed one. *)
Theorem scroll_event_completes_cycle (host : Host) inst current s sh ch H h :
  listRef inst = Some current →
  fast_path (props inst) = false →
  pixel_props (props inst) H h →
  scrollable (Dom.set_scrollTop current (JS.Finite s)) s sh ch →
  accepted inst (Dom.set_scrollTop current (JS.Finite s)) = true →
  ∃ inst',
    scrollTo host (JS.Finite s) inst = JS.Ok inst'
    ∧ status (state inst') = MEASURE_DONE
    ∧ scrollTop (state inst') = Some (JS.Finite s)
    ∧ props inst' = props inst
    ∧ listRef inst' = Some (Dom.set_scrollTop current (JS.Finite s)).
Proof.
  intros Href Hfast Hpx Hgeo Hacc. unfold scrollTo. rewrite Href.
  rewrite (render_virtual _ Hfast). cbn [onScrollAttached].
  set (current' := Dom.set_scrollTop current (JS.Finite s)) in *.
  set (inst0 := {| props := _; state := _; listRef := Some current';
                   itemElements := _; itemElementHeights := _; console := _ |}).
  destruct (onScroll_spec inst0 current' s sh ch H h eq_refl Hacc Hgeo Hpx)
    as (pq & _ & _ & _ & Hon).
  rewrite Hon. cbn [mbind outcome_bind JS.bind].
  set (inst1 := with_state inst0 _).
  destruct (flush_selected host inst1 current' (state inst0) (JS.Finite s) pq
              (Qceiling (H / h)) Hfast eq_refl eq_refl)
    as (inst2 & inst3 & _ & Hflush & Hdone & Hst3 & Hprops & Href3
        & _ & _ & _ & Ht3).
  exists inst3. split; [exact Hflush|]. split; [by rewrite Hst3|].
  split; [rewrite Ht3; reflexivity|]. split; [exact Hprops | exact Href3].
Qed.

End Extras.

(** ** The further properties on the sample configurations *)

Lemma componentDidUpdate_frame_witness :
  props fiftyMeasured = props fiftyMeasuring
  ∧ listRef fiftyMeasured = listRef fiftyMeasuring
  ∧ itemElements fiftyMeasured = itemElements fiftyMeasuring
  ∧ startIndex (state fiftyMeasured) = startIndex (state fiftyMeasuring)
  ∧ endIndex (state fiftyMeasured) = endIndex (state fiftyMeasuring).
Proof.
  destruct (componentDidUpdate_frame fiftyMeasuring fifty fiftyMeasured)
    as (Hp & Hr & He & _ & _ & _ & _ & Hs & Hend & _).
  - by_running.
  - repeat split; assumption.
Defined.

Lemma onScroll_frame_witness :
  props fiftyStarted = props fiftyScrolled
  ∧ listRef fiftyStarted = listRef fiftyScrolled
  ∧ itemElements fiftyStarted = itemElements fiftyScrolled
  ∧ itemElementHeights fiftyStarted = itemElementHeights fiftyScrolled
  ∧ console fiftyStarted = console fiftyScrolled
  ∧ startItemTop (state fiftyStarted) = startItemTop (state fiftyScrolled).
Proof. apply onScroll_frame. by_running. Defined.

Lemma onScroll_settles_witness :
  onScroll (ok_or fiftyStarted (componentDidUpdate fiftyStarted fifty))
  = JS.Ok (ok_or fiftyStarted (componentDidUpdate fiftyStarted fifty)).
Proof.
  apply (onScroll_settles fiftyScrolled (elementAt 300 750 60) fiftyStarted
           (ok_or fiftyStarted (componentDidUpdate fiftyStarted fifty)) fifty);
    by_running.
Defined.

Lemma render_window_items_witness :
  Z.of_nat (length (fillerChildren (render fiftyStarted))) = (24 - 19 + 1)%Z
  ∧ ∀ z item,
      (19 ≤ z ≤ 24)%Z →
      dataSource (props fiftyStarted) !! Z.to_nat z = Some item →
      fillerChildren (render fiftyStarted) !! Z.to_nat (z - 19)
      = Some {| node := children (props fiftyStarted) item;
                key := getItemKey (props fiftyStarted) (JS.of_Z z) |}.
Proof.
  apply (render_window_items fiftyStarted 19 24).
  - by_running.
  - by_running.
  - by_running.
  - lia.
  - lia.
  - vm_compute. discriminate.
Defined.

Lemma render_stale_window_empty_witness :
  fillerChildren (render fiftyShrunk) = [].
Proof.
  apply (render_stale_window_empty fiftyShrunk 19).
  - by_running.
  - by_running.
  - vm_compute. discriminate.
Defined.

Lemma measurement_fills_cache_witness :
  (∀ z, (19 ≤ z ≤ 24)%Z →
        itemElementHeights fiftyMeasured
          !! eleKeyOf (props fiftyMeasuring) (JS.of_Z z)
        = Some (getNodeHeight
                  (itemElements fiftyMeasuring
                     !! eleKeyOf (props fiftyMeasuring) (JS.of_Z z))))
  ∧ (∀ k, (∀ z, (19 ≤ z ≤ 24)%Z →
                k ≠ eleKeyOf (props fiftyMeasuring) (JS.of_Z z)) →
          itemElementHeights fiftyMeasured !! k
          = itemElementHeights fiftyMeasuring !! k).
Proof.
  apply (measurement_fills_cache fiftyMeasuring fifty fiftyMeasured 19 24);
    by_running.
Defined.

Lemma corrected_offset_formula_witness :
  ∃ inst' q,
    componentDidUpdate fiftyMeasuring fifty = JS.Ok inst'
    ∧ status (state inst') = MEASURE_DONE
    ∧ startItemTop (state inst') = JS.Finite q
    ∧ q == 300 + (300 # 690) * 60
           - (510 # 690) * inject_Z (rowHeight 21)
           - sum_below (λ z, inject_Z (rowHeight z)) (21 - 1) (Z.to_nat (21 - 19)).
Proof.
  apply (corrected_offset_formula fiftyMeasuring (elementAt 300 750 60) fifty
           (300 # 690) (510 # 690) 300 60 21 19 24
           (λ z, inject_Z (rowHeight z))).
  1-6, 8-10: by_running.
  { lia. }
  intros z Hz.
  assert (Hn : ∃ n : nat, (n < 6)%nat ∧ z = (19 + Z.of_nat n)%Z)
    by (exists (Z.to_nat (z - 19)); lia).
  destruct Hn as (n & Hn & ->).
  do 6 (destruct n as [|n]; [by_running|]). lia.
Defined.

Lemma detached_container_witness :
  onScroll (construct fifty) = JS.TypeError
  ∧ componentDidMount (construct fifty) = JS.TypeError
  ∧ ∃ inst', componentDidUpdate (construct fifty) few = JS.Ok inst'
             ∧ state inst' = state (construct fifty).
Proof.
  destruct (detached_container (construct fifty) few eq_refl)
    as (Hscroll & Hmount & Hidle & _).
  split; [exact Hscroll|]. split; [exact Hmount|]. apply Hidle. discriminate.
Defined.

Lemma measurement_terminates_after_scroll_witness :
  componentDidUpdate fiftyStarted fifty ≠ JS.Hang
  ∧ update fiftyHost fifty fiftyStarted ≠ JS.Hang.
Proof.
  apply (measurement_terminates_after_scroll fiftyHost fiftyScrolled
           (elementAt 300 750 60) fiftyStarted fifty); by_running.
Defined.

Lemma mount_virtualized_completes_witness :
  ∃ inst,
    mount fiftyHost fifty = JS.Ok inst
    ∧ status (state inst) = MEASURE_DONE
    ∧ props inst = fifty
    ∧ listRef inst = Some (Dom.set_scrollTop (container fiftyHost) JS.zero)
    ∧ scrollTop (state inst) = Some JS.zero
    ∧ itemIndex (state inst) = JS.zero
    ∧ startIndex (state inst) = JS.zero.
Proof.
  apply (mount_virtualized_completes fiftyHost fifty 60 15 750 60).
  - pixel_sized.
  - by_running.
  - reflexivity.
  - reflexivity.
  - lra.
Defined.

Lemma index_keys_distinct_witness :
  eleKeyOf fifty (JS.of_Z 3) ≠ eleKeyOf fifty (JS.of_Z 4).
Proof. apply index_keys_distinct; [reflexivity | lia]. Defined.

Lemma keyed_item_key_follows_item_witness :
  getItemKey sparse (JS.of_Z 1)
  = JS.get_property (JS.VObject [("id", JS.VString "0")]) "id"
  ∧ getItemKey keyed (JS.of_Z 0) = getItemKey sparse (JS.of_Z 1).
Proof.
  apply (keyed_item_key_follows_item sparse keyed (JS.of_Z 1) (JS.of_Z 0) "id"
           (JS.VObject [("id", JS.VString "0")]));
    try reflexivity. discriminate.
Defined.

Lemma scroll_event_completes_cycle_witness :
  ∃ inst',
    scrollTo fiftyHost (JS.Finite 300) (committed fiftyHost fifty) = JS.Ok inst'
    ∧ status (state inst') = MEASURE_DONE
    ∧ scrollTop (state inst') = Some (JS.Finite 300)
    ∧ props inst' = props (committed fiftyHost fifty)
    ∧ listRef inst'
      = Some (Dom.set_scrollTop (elementAt 0 750 60) (JS.Finite 300)).
Proof.
  apply (scroll_event_completes_cycle fiftyHost (committed fiftyHost fifty)
           (elementAt 0 750 60) 300 750 60 60 15).
  - by_running.
  - by_running.
  - pixel_sized.
  - browser_geometry.
  - by_running.
Defined.
